(** * static-injector: factory synthesis and decorator reflection

  A shallow embedding of
  - [compiler/src/render3/r3_factory.ts]: the compiler of [ɵfac] factory
    functions ([compileFactoryFunction] and its helpers), and
  - [compiler-cli/src/ngtsc/reflection/src/host.ts]: the [Decorator] union
    and [Decorator.nodeForError].

  The factory compiler builds terms of the output AST
  ([../output/output_ast]).  The AST is a free term algebra: its node
  classes are the constructors below and its builder helpers ([variable],
  [callFn], [importExpr], ...) are the corresponding smart constructors.
  JavaScript numbers that the compiler handles (argument indices, flag
  masks, arities) are integers and are modelled in [Z]; [undefined] and
  [null] are modelled by [option]. *)

From Stdlib Require Import ZArith List String Bool Lia.
Import ListNotations.

Local Open Scope string_scope.
Local Open Scope list_scope.
Local Open Scope Z_scope.

#[local] Set Warnings "-register-all".

(* ================================================================== *)
(** ** TypeScript syntax nodes *)

Module ts.

(** A node of the TypeScript syntax tree.  The tree belongs to the front
    end; only the identity of a node matters here. *)
Inductive Node : Type := mkNode (id : positive).

Definition Expression := Node.

End ts.

(* ================================================================== *)
(** ** The table of runtime identifiers ([r3_identifiers]) *)

Module R3.

(** The entries of the [Identifiers] table that the factory compiler
    reads.  Each entry is an external reference to one runtime function
    (or type); the entries are kept symbolic. *)
Inductive Identifier : Type :=
| invalidFactory
| invalidFactoryDep
| getInheritedFactory
| FactoryDeclaration
| directiveInject
| inject.

Definition eqb (a b : Identifier) : bool :=
  match a, b with
  | invalidFactory, invalidFactory
  | invalidFactoryDep, invalidFactoryDep
  | getInheritedFactory, getInheritedFactory
  | FactoryDeclaration, FactoryDeclaration
  | directiveInject, directiveInject
  | inject, inject => true
  | _, _ => false
  end.

End R3.

(* ================================================================== *)
(** ** The output AST *)

Module outputAst.

(** [ExternalReference]: an entry of the identifier table, or any other
    module/name pair. *)
Inductive ExternalReference : Type :=
| R3Reference_ (id : R3.Identifier)
| ModuleReference (moduleName : option string) (name : option string).

Inductive BuiltinTypeName : Type :=
| Dynamic
| Inferred
| None_.

Inductive BinaryOperator : Type :=
| Or
| And
| Identical
| NotIdentical.

(** The value held by a [LiteralExpr]. *)
Inductive LiteralValue : Type :=
| LitNull
| LitBool (b : bool)
| LitNumber (n : Z)
| LitString (s : string).

(** Expressions, types, statements, function parameters and map entries.
    An argument array of a call may hold [undefined] (JavaScript arrays
    do): its elements are [option Expression]. *)
Inductive Expression : Type :=
| ReadVarExpr (name : string)
| WriteVarExpr (name : string) (value : Expression)
| InvokeFunctionExpr (fn : Expression) (args : list (option Expression))
                     (pure : bool)
| InstantiateExpr (classExpr : Expression) (args : list (option Expression))
| LiteralExpr (value : LiteralValue)
| ExternalExpr (value : ExternalReference) (typeParams : option (list Type_))
| ConditionalExpr (condition trueCase falseCase : Expression)
| BinaryOperatorExpr (operator : BinaryOperator) (lhs rhs : Expression)
| FunctionExpr (params : list FnParam) (statements : list Statement)
               (type : option Type_) (name : option string)
| LiteralArrayExpr (entries : list Expression)
| LiteralMapExpr (entries : list LiteralMapEntry)
| WrappedNodeExpr (node : ts.Node)
with Type_ : Type :=
| BuiltinType (name : BuiltinTypeName)
| ExpressionType (value : Expression) (typeParams : option (list Type_))
with Statement : Type :=
| DeclareVarStmt (name : string) (value : option Expression)
| ExpressionStatement (expr : Expression)
| ReturnStatement (value : Expression)
| IfStmt (condition : Expression) (trueCase falseCase : list Statement)
with FnParam : Type :=
| mkFnParam (name : string) (type : Type_)
with LiteralMapEntry : Type :=
| mkLiteralMapEntry (key : string) (value : Expression) (quoted : bool).

Definition DYNAMIC_TYPE : Type_ := BuiltinType Dynamic.
Definition INFERRED_TYPE : Type_ := BuiltinType Inferred.
Definition NONE_TYPE : Type_ := BuiltinType None_.

(** *** Builders *)

Definition variable (name : string) : Expression := ReadVarExpr name.

Definition literal (v : LiteralValue) : Expression := LiteralExpr v.

Definition NULL_EXPR : Expression := LiteralExpr LitNull.

(** [importExpr(id, typeParams = null)] *)
Definition importExpr (id : R3.Identifier)
           (typeParams : option (list Type_)) : Expression :=
  ExternalExpr (R3Reference_ id) typeParams.

(** [e.callFn(params, sourceSpan, pure)] *)
Definition callFn (e : Expression) (params : list (option Expression))
           (pure : bool) : Expression :=
  InvokeFunctionExpr e params pure.

(** [v.set(value)] on the variable read [v = variable(name)] *)
Definition set (name : string) (value : Expression) : Expression :=
  WriteVarExpr name value.

(** [w.toDeclStmt()] on the write [w = variable(name).set(value)] *)
Definition toDeclStmt (name : string) (value : Expression) : Statement :=
  DeclareVarStmt name (Some value).

Definition toStmt (e : Expression) : Statement := ExpressionStatement e.

Definition ifStmt (condition : Expression)
           (thenClause elseClause : list Statement) : Statement :=
  IfStmt condition thenClause elseClause.

(** [fn(params, body, type, sourceSpan, name)] *)
Definition fn (params : list FnParam) (body : list Statement)
           (type : option Type_) (name : option string) : Expression :=
  FunctionExpr params body type name.

Definition literalArr (values : list Expression) : Expression :=
  LiteralArrayExpr values.

Definition literalMap (entries : list LiteralMapEntry) : Expression :=
  LiteralMapExpr entries.

(** [expressionType(expr, typeModifiers, typeParams)] *)
Definition expressionType (expr : Expression)
           (typeParams : option (list Type_)) : Type_ :=
  ExpressionType expr typeParams.

(** *** Traversals

    [count pe ps e] adds up [pe] over every expression node and [ps] over
    every statement node of [e], type arguments and parameter types
    included. *)
Section Count.
Variable pe : Expression -> nat.
Variable ps : Statement -> nat.

Definition sum (l : list nat) : nat := fold_right Nat.add 0%nat l.

Fixpoint count (e : Expression) : nat :=
  (pe e +
   match e with
   | ReadVarExpr _ => 0
   | WriteVarExpr _ v => count v
   | InvokeFunctionExpr f args _ =>
       count f +
       sum (map (fun a => match a with Some x => count x | None => 0 end)
                args)
   | InstantiateExpr c args =>
       count c +
       sum (map (fun a => match a with Some x => count x | None => 0 end)
                args)
   | LiteralExpr _ => 0
   | ExternalExpr _ tps =>
       match tps with Some l => sum (map countType l) | None => 0 end
   | ConditionalExpr c a b => count c + count a + count b
   | BinaryOperatorExpr _ a b => count a + count b
   | FunctionExpr params body ty _ =>
       sum (map (fun p => match p with mkFnParam _ t => countType t end)
                params) +
       sum (map countStmt body) +
       match ty with Some t => countType t | None => 0 end
   | LiteralArrayExpr l => sum (map count l)
   | LiteralMapExpr l =>
       sum (map (fun en => match en with
                           | mkLiteralMapEntry _ v _ => count v
                           end) l)
   | WrappedNodeExpr _ => 0
   end)%nat
with countType (t : Type_) : nat :=
  (match t with
   | BuiltinType _ => 0
   | ExpressionType v tps =>
       count v +
       match tps with Some l => sum (map countType l) | None => 0 end
   end)%nat
with countStmt (s : Statement) : nat :=
  (ps s +
   match s with
   | DeclareVarStmt _ v =>
       match v with Some x => count x | None => 0 end
   | ExpressionStatement x => count x
   | ReturnStatement x => count x
   | IfStmt c a b =>
       count c + sum (map countStmt a) + sum (map countStmt b)
   end)%nat.

Definition countArgs (args : list (option Expression)) : nat :=
  sum (map (fun a => match a with Some x => count x | None => 0%nat end)
           args).

Definition countStmts (l : list Statement) : nat :=
  sum (map countStmt l).
End Count.

(** Number of [new C(...)] nodes. *)
Definition countInstantiate : Expression -> nat :=
  count (fun e => match e with InstantiateExpr _ _ => 1 | _ => 0 end)%nat
        (fun _ => 0%nat).

(** Number of branching nodes: [if] statements and [c ? a : b]. *)
Definition countConditional : Expression -> nat :=
  count (fun e => match e with ConditionalExpr _ _ _ => 1 | _ => 0 end)%nat
        (fun s => match s with IfStmt _ _ _ => 1 | _ => 0 end)%nat.

(** Number of references to the table entry [id]. *)
Definition isReference (id : R3.Identifier) (e : Expression) : nat :=
  match e with
  | ExternalExpr (R3Reference_ id') _ => if R3.eqb id id' then 1 else 0
  | _ => 0
  end%nat.

Definition countReference (id : R3.Identifier) : Expression -> nat :=
  count (isReference id) (fun _ => 0%nat).

End outputAst.


(* ================================================================== *)
(** ** JavaScript numbers *)

Module js.

(** [ToInt32]: the signed 32-bit reading of an integer. *)
Definition ToInt32 (z : Z) : Z := (z + 2 ^ 31) mod 2 ^ 32 - 2 ^ 31.

(** [a | b]: both operands are read as signed 32-bit integers. *)
Definition bitor (a b : Z) : Z := Z.lor (ToInt32 a) (ToInt32 b).

End js.

(* ================================================================== *)
(** ** Collaborators of the factory compiler *)

Module core.

(** The members of the enum [InjectFlags] ([../core]) that the factory
    compiler reads.  The compiler is parameterised by this table. *)
Record InjectFlags : Type := {
  Default : Z;
  Self : Z;
  SkipSelf : Z;
  Optional : Z
}.

(** Modelled from the spec: the enum [InjectFlags] is declared in [../core],
    which is not among the sources.  The three qualifier flags are encoded
    into a single bitmask: one bit per qualifier, [Default] the empty mask.
    This table is used for closed examples only. *)
Definition bitmask : InjectFlags :=
  {| Default := 0; Self := 2; SkipSelf := 4; Optional := 8 |}.

End core.

Module util.
Import outputAst.

(** [R3Reference]: a value expression and a type expression for one
    class. *)
Record R3Reference : Type := {
  value : Expression;
  type : Expression
}.

(** [R3CompiledExpression] *)
Record R3CompiledExpression : Type := {
  expression : Expression;
  statements : list Statement;
  compiledType : Type_
}.

(** Modelled from the spec: [typeWithParameters] is declared in [./util],
    which is not among the sources.  It is the parameterized reference
    encoding the constructed type and its generic arity: the type expression
    with one dynamic type argument per generic parameter.  The compiler is
    parameterised by this function; this instance is used for closed
    examples only. *)
Definition typeWithParameters (type : Expression) (numParams : Z) : Type_ :=
  if numParams =? 0
  then expressionType type None
  else expressionType type (Some (repeat DYNAMIC_TYPE (Z.to_nat numParams))).

End util.

(* ================================================================== *)
(** ** [r3_factory.ts] *)

Import outputAst.

Inductive R3FactoryDelegateType : Type :=
| Class
| Function.

Inductive FactoryTarget : Type :=
| Directive
| Component
| Injectable
| Pipe
| NgModule.

Record R3DependencyMetadata : Type := {
  token : option Expression;
  attributeNameType : option Expression;
  optional : bool;
  self : bool;
  skipSelf : bool
}.

(** The field [deps]: [R3DependencyMetadata[] | 'invalid' | null]. *)
Inductive Deps : Type :=
| DepsList (l : list R3DependencyMetadata)
| DepsInvalid
| DepsNull.

Record R3ConstructorFactoryMetadata : Type := {
  name : string;
  type : util.R3Reference;
  internalType : Expression;
  typeArgumentCount : Z;
  deps : Deps;
  target : FactoryTarget
}.

(** [R3FactoryMetadata]: the union of the three metadata interfaces.  The
    second and third extend [R3ConstructorFactoryMetadata] with the fields
    [delegate], [delegateType], [delegateDeps] and [expression]. *)
Inductive R3FactoryMetadata : Type :=
| R3ConstructorFactory (base : R3ConstructorFactoryMetadata)
| R3DelegatedFnOrClass (base : R3ConstructorFactoryMetadata)
                       (delegate : Expression)
                       (delegateType : R3FactoryDelegateType)
                       (delegateDeps : list R3DependencyMetadata)
| R3ExpressionFactory (base : R3ConstructorFactoryMetadata)
                      (expression : Expression).

(** The fields every variant shares. *)
Definition base (meta : R3FactoryMetadata) : R3ConstructorFactoryMetadata :=
  match meta with
  | R3ConstructorFactory b => b
  | R3DelegatedFnOrClass b _ _ _ => b
  | R3ExpressionFactory b _ => b
  end.

(** [(meta as any).delegateType !== undefined] *)
Definition isDelegatedFactoryMetadata (meta : R3FactoryMetadata) : bool :=
  match meta with
  | R3DelegatedFnOrClass _ _ _ _ => true
  | _ => false
  end.

(** [(meta as any).expression !== undefined] *)
Definition isExpressionFactoryMetadata (meta : R3FactoryMetadata) : bool :=
  match meta with
  | R3ExpressionFactory _ _ => true
  | _ => false
  end.

Definition getInjectFn (target : FactoryTarget) : R3.Identifier :=
  match target with
  | Component | Directive | Pipe => R3.directiveInject
  | NgModule | Injectable => R3.inject
  end.

Definition createCtorDepType (dep : R3DependencyMetadata)
  : option Expression :=
  let entries : list LiteralMapEntry := [] in
  let entries :=
    if optional dep
    then entries ++ [mkLiteralMapEntry "optional" (literal (LitBool true)) false]
    else entries in
  let entries :=
    if self dep
    then entries ++ [mkLiteralMapEntry "self" (literal (LitBool true)) false]
    else entries in
  let entries :=
    if skipSelf dep
    then entries ++ [mkLiteralMapEntry "skipSelf" (literal (LitBool true)) false]
    else entries in
  if (0 <? List.length entries)%nat then Some (literalMap entries) else None.

(** The callback of [deps.map] in [createCtorDepsType]: it returns the array
    element and updates the captured flag [hasTypes]. *)
Definition ctorDepsTypeStep (hasTypes : bool) (dep : R3DependencyMetadata)
  : bool * Expression :=
  match createCtorDepType dep with
  | Some type => (true, type)
  | None => (hasTypes, literal LitNull)
  end.

Fixpoint ctorDepsTypeMap (hasTypes : bool) (deps : list R3DependencyMetadata)
  : bool * list Expression :=
  match deps with
  | [] => (hasTypes, [])
  | dep :: rest =>
      let '(hasTypes, type) := ctorDepsTypeStep hasTypes dep in
      let '(hasTypes, types) := ctorDepsTypeMap hasTypes rest in
      (hasTypes, type :: types)
  end.

Definition createCtorDepsType (deps : list R3DependencyMetadata) : Type_ :=
  let '(hasTypes, attributeTypes) := ctorDepsTypeMap false deps in
  if hasTypes
  then expressionType (literalArr attributeTypes) None
  else NONE_TYPE.

Section Factory.

Variable InjectFlags : core.InjectFlags.
Variable typeWithParameters : Expression -> Z -> Type_.

(** The result is [None] when the function returns [undefined]. *)
Definition compileInjectDependency (dep : R3DependencyMetadata)
           (target : FactoryTarget) (index : Z) : option Expression :=
  match token dep with
  | None =>
      Some (callFn (importExpr R3.invalidFactoryDep None)
                   [Some (literal (LitNumber index))] false)
  | Some tok =>
      match attributeNameType dep with
      | None =>
          let flags :=
            js.bitor
              (js.bitor
                 (js.bitor (core.Default InjectFlags)
                           (if self dep then core.Self InjectFlags else 0))
                 (if skipSelf dep then core.SkipSelf InjectFlags else 0))
              (if optional dep then core.Optional InjectFlags else 0) in
          let flagsParam : option Expression :=
            if negb (flags =? core.Default InjectFlags) || optional dep
            then Some (literal (LitNumber flags))
            else None in
          let injectArgs := [Some tok] in
          let injectArgs :=
            match flagsParam with
            | Some p => injectArgs ++ [Some p]
            | None => injectArgs
            end in
          let injectFn := getInjectFn target in
          Some (callFn (importExpr injectFn None) injectArgs false)
      | Some _ => None
      end
  end.

(** [deps.map((dep, index) => ...)], the index counted from [index]. *)
Fixpoint injectDependenciesFrom (index : nat)
         (deps : list R3DependencyMetadata) (target : FactoryTarget)
  : list (option Expression) :=
  match deps with
  | [] => []
  | dep :: rest =>
      compileInjectDependency dep target (Z.of_nat index)
      :: injectDependenciesFrom (S index) rest target
  end.

Definition injectDependencies (deps : list R3DependencyMetadata)
           (target : FactoryTarget) : list (option Expression) :=
  injectDependenciesFrom 0 deps target.

Definition createFactoryType (meta : R3FactoryMetadata) : Type_ :=
  let ctorDepsType :=
    match deps (base meta) with
    | DepsList l => createCtorDepsType l
    | _ => NONE_TYPE
    end in
  expressionType
    (importExpr R3.FactoryDeclaration
       (Some [typeWithParameters (util.type (type (base meta)))
                                 (typeArgumentCount (base meta));
              ctorDepsType]))
    None.

(** The type to instantiate via constructor invocation. *)
Definition typeForCtor (meta : R3FactoryMetadata) : Expression :=
  let t := variable "t" in
  if negb (isDelegatedFactoryMetadata meta)
  then BinaryOperatorExpr Or t (internalType (base meta))
  else t.

(** The name of the variable [baseFactoryVar]. *)
Definition baseFactoryName (meta : R3FactoryMetadata) : string :=
  ("ɵ" ++ name (base meta) ++ "_BaseFactory")%string.

(** The closure [makeConditionalFactory]: it reads the captured [ctorExpr]
    and [t], pushes two statements on the captured [body] and returns the
    variable [r]. *)
Definition makeConditionalFactory (ctorExpr : option Expression)
           (t : Expression) (body : list Statement)
           (nonCtorExpr : Expression) : list Statement * Expression :=
  let r := "r" in
  let body := body ++ [toDeclStmt r NULL_EXPR] in
  let ctorStmt :=
    match ctorExpr with
    | Some c => toStmt (set r c)
    | None => toStmt (callFn (importExpr R3.invalidFactory None) [] false)
    end in
  let body :=
    body ++ [ifStmt t [ctorStmt] [toStmt (set r nonCtorExpr)]] in
  (body, variable r).

Definition compileFactoryFunction (meta : R3FactoryMetadata)
  : util.R3CompiledExpression :=
  let t := variable "t" in
  let typeForCtor := typeForCtor meta in
  let '(ctorExpr, baseFactoryVar) :=
    match deps (base meta) with
    | DepsList l =>
        (Some (InstantiateExpr typeForCtor
                 (injectDependencies l (target (base meta)))),
         None)
    | DepsInvalid => (None, None)
    | DepsNull =>
        let baseFactoryVar := baseFactoryName meta in
        (Some (callFn (variable baseFactoryVar) [Some typeForCtor] false),
         Some baseFactoryVar)
    end in
  let body : list Statement := [] in
  let '(body, retExpr) :=
    match meta with
    | R3DelegatedFnOrClass _ delegate delegateType delegateDeps =>
        let delegateArgs :=
          injectDependencies delegateDeps (target (base meta)) in
        let factoryExpr :=
          match delegateType with
          | Class => InstantiateExpr delegate delegateArgs
          | Function => InvokeFunctionExpr delegate delegateArgs false
          end in
        let '(body, r) := makeConditionalFactory ctorExpr t body factoryExpr in
        (body, Some r)
    | R3ExpressionFactory _ expression =>
        let '(body, r) := makeConditionalFactory ctorExpr t body expression in
        (body, Some r)
    | R3ConstructorFactory _ => (body, ctorExpr)
    end in
  let body :=
    match retExpr with
    | None =>
        body ++ [toStmt (callFn (importExpr R3.invalidFactory None) [] false)]
    | Some retExpr =>
        match baseFactoryVar with
        | Some baseFactoryVar =>
            let getInheritedFactoryCall :=
              callFn (importExpr R3.getInheritedFactory None)
                     [Some (internalType (base meta))] false in
            let baseFactory :=
              BinaryOperatorExpr Or (variable baseFactoryVar)
                (set baseFactoryVar getInheritedFactoryCall) in
            body ++ [ReturnStatement
                       (callFn baseFactory [Some typeForCtor] false)]
        | None => body ++ [ReturnStatement retExpr]
        end
    end in
  let factoryFn :=
    fn [mkFnParam "t" DYNAMIC_TYPE] body (Some INFERRED_TYPE)
       (Some (name (base meta) ++ "_Factory")%string) in
  let factoryFn :=
    match baseFactoryVar with
    | Some baseFactoryVar =>
        callFn (fn [] [DeclareVarStmt baseFactoryVar None;
                       ReturnStatement factoryFn] None None)
               [] true
    | None => factoryFn
    end in
  {| util.expression := factoryFn;
     util.statements := [];
     util.compiledType := createFactoryType meta |}.

End Factory.

(** *** Readings of a compiled factory, used to state its properties *)

(** What [createCtorDepType] records for one dependency: an entry
    [key: true], unquoted, for each qualifier that is set. *)
Definition qualifierEntry (key : string) : LiteralMapEntry :=
  mkLiteralMapEntry key (literal (LitBool true)) false.

Definition hasQualifier (dep : R3DependencyMetadata) : bool :=
  optional dep || self dep || skipSelf dep.

Definition qualifierKeys (dep : R3DependencyMetadata) : list string :=
  (if optional dep then ["optional"] else []) ++
  (if self dep then ["self"] else []) ++
  (if skipSelf dep then ["skipSelf"] else []).

(** The element that stands for one dependency in the array of
    constructor dependency types: the record of its qualifiers, or [null]
    when it has none. *)
Definition ctorDepTypeElement (dep : R3DependencyMetadata) : Expression :=
  if hasQualifier dep
  then literalMap (map qualifierEntry (qualifierKeys dep))
  else literal LitNull.

(** The second type argument of the declared factory type. *)
Definition ctorDepsTypeOf (d : Deps) : Type_ :=
  match d with
  | DepsList l =>
      if existsb hasQualifier l
      then expressionType (literalArr (map ctorDepTypeElement l)) None
      else NONE_TYPE
  | DepsInvalid | DepsNull => NONE_TYPE
  end.

(** References to [id] in the tokens of a dependency list. *)
Definition countTokenReferences (id : R3.Identifier)
           (l : list R3DependencyMetadata) : nat :=
  sum (map (fun dep => match token dep with
                       | Some tok => countReference id tok
                       | None => 0%nat
                       end) l).

(** References to [id] in the expressions that the metadata supplies. *)
Definition countMetaReferences (id : R3.Identifier)
           (meta : R3FactoryMetadata) : nat :=
  (countReference id (internalType (base meta)) +
   match deps (base meta) with
   | DepsList l => countTokenReferences id l
   | _ => 0
   end +
   match meta with
   | R3ConstructorFactory _ => 0
   | R3DelegatedFnOrClass _ delegate _ delegateDeps =>
       countReference id delegate + countTokenReferences id delegateDeps
   | R3ExpressionFactory _ expression => countReference id expression
   end)%nat.

(** The call of the delegate: [new delegate(...)] or [delegate(...)], on
    the compiled dependencies of the delegate. *)
Definition delegateCall (InjectFlags : core.InjectFlags)
           (target : FactoryTarget) (delegate : Expression)
           (delegateType : R3FactoryDelegateType)
           (delegateDeps : list R3DependencyMetadata) : Expression :=
  match delegateType with
  | Class =>
      InstantiateExpr delegate
        (injectDependencies InjectFlags delegateDeps target)
  | Function =>
      InvokeFunctionExpr delegate
        (injectDependencies InjectFlags delegateDeps target) false
  end.

(** The shape [var r = null; if (t) { r = ctor } else { r = other };
    return r] of a factory function that selects, by its parameter [t],
    between a constructor expression and another expression. *)
Definition selectsByOverride (factoryFn ctorExpr nonCtorExpr : Expression)
  : Prop :=
  exists params type name,
    factoryFn =
    FunctionExpr params
      [DeclareVarStmt "r" (Some NULL_EXPR);
       IfStmt (ReadVarExpr "t")
              [ExpressionStatement (WriteVarExpr "r" ctorExpr)]
              [ExpressionStatement (WriteVarExpr "r" nonCtorExpr)];
       ReturnStatement (ReadVarExpr "r")]
      type name.

(* ================================================================== *)
(** ** [host.ts]: decorators *)

Module host.

(** [DecoratorIdentifier = ts.Identifier | NamespacedIdentifier]: an
    identifier, or a property access [expression.name] of two
    identifiers. *)
Inductive DecoratorIdentifier : Type :=
| Identifier (id : ts.Node)
| NamespacedIdentifier (access expression name : ts.Node).

Record Import : Type := {
  importName : string;
  from : string
}.

(** [Decorator = ConcreteDecorator | SyntheticDecorator].  Both interfaces
    extend [BaseDecorator]; [ConcreteDecorator] narrows [identifier] and
    [node] to non-null, [SyntheticDecorator] narrows them to [null] and adds
    [synthesizedFor]. *)
Inductive Decorator : Type :=
| ConcreteDecorator (name : string) (identifier : DecoratorIdentifier)
                    (import : option Import) (node : ts.Node)
                    (args : option (list ts.Expression))
| SyntheticDecorator (name : string) (import : option Import)
                     (args : option (list ts.Expression))
                     (synthesizedFor : ts.Node).

(** *** Field reads on a [Decorator]; [None] is [null], or [undefined] for
    a field that the object does not have. *)

Definition name (d : Decorator) : string :=
  match d with
  | ConcreteDecorator n _ _ _ _ => n
  | SyntheticDecorator n _ _ _ => n
  end.

Definition identifier (d : Decorator) : option DecoratorIdentifier :=
  match d with
  | ConcreteDecorator _ i _ _ _ => Some i
  | SyntheticDecorator _ _ _ _ => None
  end.

Definition import (d : Decorator) : option Import :=
  match d with
  | ConcreteDecorator _ _ i _ _ => i
  | SyntheticDecorator _ i _ _ => i
  end.

Definition node (d : Decorator) : option ts.Node :=
  match d with
  | ConcreteDecorator _ _ _ n _ => Some n
  | SyntheticDecorator _ _ _ _ => None
  end.

Definition args (d : Decorator) : option (list ts.Expression) :=
  match d with
  | ConcreteDecorator _ _ _ _ a => a
  | SyntheticDecorator _ _ a _ => a
  end.

Definition synthesizedFor (d : Decorator) : option ts.Node :=
  match d with
  | ConcreteDecorator _ _ _ _ _ => None
  | SyntheticDecorator _ _ _ s => Some s
  end.

(** [Decorator.nodeForError]; the result is [None] when the function
    returns [undefined]. *)
Definition nodeForError (decorator : Decorator) : option ts.Node :=
  match node decorator with
  | Some n => Some n
  | None => synthesizedFor decorator
  end.

End host.

(* ================================================================== *)
(** ** Sample inputs *)

Module Samples.

Definition T1 : Expression := WrappedNodeExpr (ts.mkNode 1).
Definition T2 : Expression := WrappedNodeExpr (ts.mkNode 2).
Definition attrName : Expression := LiteralExpr (LitString "title").
Definition MyClass : Expression := ReadVarExpr "MyClass".
Definition Delegate : Expression := ReadVarExpr "Delegate".

Definition dep (tok attr : option Expression) (o s k : bool)
  : R3DependencyMetadata :=
  {| token := tok; attributeNameType := attr;
     optional := o; self := s; skipSelf := k |}.

Definition plainDep : R3DependencyMetadata :=
  dep (Some T1) None false false false.
Definition selfDep : R3DependencyMetadata :=
  dep (Some T1) None false true false.
Definition unresolvedDep : R3DependencyMetadata :=
  dep None None false false false.
Definition attributeDep : R3DependencyMetadata :=
  dep (Some T2) (Some attrName) false false false.

Definition meta (d : Deps) (tgt : FactoryTarget)
  : R3ConstructorFactoryMetadata :=
  {| name := "MyClass";
     type := {| util.value := MyClass; util.type := MyClass |};
     internalType := MyClass;
     typeArgumentCount := 0;
     deps := d;
     target := tgt |}.

Definition compile : R3FactoryMetadata -> util.R3CompiledExpression :=
  compileFactoryFunction core.bitmask util.typeWithParameters.

End Samples.

(* ================================================================== *)
(** ** Further readings of the compiled output *)

(** A flag table in which the default mask is empty and each of the three
    qualifier flags is a positive 31-bit value. *)
Definition flagsInRange (InjectFlags : core.InjectFlags) : Prop :=
  core.Default InjectFlags = 0
  /\ 0 < core.Self InjectFlags < 2 ^ 31
  /\ 0 < core.SkipSelf InjectFlags < 2 ^ 31
  /\ 0 < core.Optional InjectFlags < 2 ^ 31.

(** A flag table in which no two qualifier flags share a bit. *)
Definition flagsDisjoint (InjectFlags : core.InjectFlags) : Prop :=
  Z.land (core.Self InjectFlags) (core.SkipSelf InjectFlags) = 0
  /\ Z.land (core.Self InjectFlags) (core.Optional InjectFlags) = 0
  /\ Z.land (core.SkipSelf InjectFlags) (core.Optional InjectFlags) = 0.

(** The union of the flags of the qualifiers that a dependency sets. *)
Definition qualifierMask (InjectFlags : core.InjectFlags)
           (dep : R3DependencyMetadata) : Z :=
  Z.lor
    (Z.lor (if self dep then core.Self InjectFlags else 0)
           (if skipSelf dep then core.SkipSelf InjectFlags else 0))
    (if optional dep then core.Optional InjectFlags else 0).

(** The dependencies of a list that have no token. *)
Definition unresolved (deps : list R3DependencyMetadata)
  : list R3DependencyMetadata :=
  filter (fun dep => match token dep with Some _ => false | None => true end)
         deps.

(** The three qualifiers of a dependency. *)
Definition qualifiers (dep : R3DependencyMetadata) : bool * bool * bool :=
  (optional dep, self dep, skipSelf dep).

(** The qualifiers of the constructor's dependencies, when [deps] is a
    list. *)
Definition depsQualifiers (d : Deps) : option (list (bool * bool * bool)) :=
  match d with
  | DepsList l => Some (map qualifiers l)
  | DepsInvalid | DepsNull => None
  end.

(** [f] added up over the tokens of a dependency list that get compiled:
    those of the dependencies without attribute-name type. *)
Definition sumCompiledTokens (f : Expression -> nat)
           (l : list R3DependencyMetadata) : nat :=
  sum (map (fun dep => match attributeNameType dep, token dep with
                       | None, Some tok => f tok
                       | _, _ => 0%nat
                       end) l).

(** The metadata [meta] with its field [target] set to [tgt]. *)
Definition withTarget (tgt : FactoryTarget)
           (b : R3ConstructorFactoryMetadata) : R3ConstructorFactoryMetadata :=
  {| name := name b;
     type := type b;
     internalType := internalType b;
     typeArgumentCount := typeArgumentCount b;
     deps := deps b;
     target := tgt |}.

Definition metaWithTarget (tgt : FactoryTarget) (meta : R3FactoryMetadata)
  : R3FactoryMetadata :=
  match meta with
  | R3ConstructorFactory b => R3ConstructorFactory (withTarget tgt b)
  | R3DelegatedFnOrClass b delegate delegateType delegateDeps =>
      R3DelegatedFnOrClass (withTarget tgt b) delegate delegateType
                           delegateDeps
  | R3ExpressionFactory b expression =>
      R3ExpressionFactory (withTarget tgt b) expression
  end.

(* ================================================================== *)
(** ** [host.ts]: decorator objects *)

Module hostObjects.

(** An object read through the fields that the decorator interfaces
    declare.  [identifier] and [node] are declared by [BaseDecorator] as
    nullable; [synthesizedFor] is declared by [SyntheticDecorator] only,
    and [None] stands for an object that has no such property.  The
    interfaces are open: an object may hold properties that its interface
    does not declare. *)
Record DecoratorObject : Type := {
  name : string;
  identifier : option host.DecoratorIdentifier;
  import : option host.Import;
  node : option ts.Node;
  args : option (list ts.Expression);
  synthesizedFor : option ts.Node
}.

Definition isSome {A : Type} (o : option A) : bool :=
  match o with Some _ => true | None => false end.

(** [ConcreteDecorator extends BaseDecorator]: [identifier] and [node] are
    narrowed to non-null. *)
Definition isConcreteDecorator (o : DecoratorObject) : bool :=
  isSome (identifier o) && isSome (node o).

(** [SyntheticDecorator extends BaseDecorator]: [identifier] and [node] are
    narrowed to [null], and [synthesizedFor] is a node. *)
Definition isSyntheticDecorator (o : DecoratorObject) : bool :=
  negb (isSome (identifier o)) && negb (isSome (node o))
  && isSome (synthesizedFor o).

(** [Decorator = ConcreteDecorator | SyntheticDecorator] *)
Definition isDecorator (o : DecoratorObject) : bool :=
  isConcreteDecorator o || isSyntheticDecorator o.

(** The object of a decorator that holds the declared fields only. *)
Definition ofDecorator (d : host.Decorator) : DecoratorObject :=
  {| name := host.name d;
     identifier := host.identifier d;
     import := host.import d;
     node := host.node d;
     args := host.args d;
     synthesizedFor := host.synthesizedFor d |}.

(** Sample objects. *)
Definition concreteSample : DecoratorObject :=
  {| name := "Injectable";
     identifier := Some (host.Identifier (ts.mkNode 10));
     import := None;
     node := Some (ts.mkNode 11);
     args := None;
     synthesizedFor := None |}.

Definition syntheticSample : DecoratorObject :=
  {| name := "Injectable";
     identifier := None;
     import := None;
     node := None;
     args := Some [];
     synthesizedFor := Some (ts.mkNode 12) |}.

(** A concrete decorator that also holds a [synthesizedFor] property. *)
Definition concreteWithSynthesizedFor : DecoratorObject :=
  {| name := "Injectable";
     identifier := Some (host.Identifier (ts.mkNode 10));
     import := None;
     node := Some (ts.mkNode 11);
     args := None;
     synthesizedFor := Some (ts.mkNode 12) |}.

End hostObjects.

(* ================================================================== *)
(** ** TypeScript expressions, as [isDecoratorIdentifier] inspects them *)

Module tsAst.

(** The expression nodes that the guard tells apart, by their syntax kind;
    [name] of a property access is an identifier or a private
    identifier. *)
Inductive Expression : Type :=
| Identifier (text : string)
| PrivateIdentifier (text : string)
| PropertyAccessExpression (expression : Expression) (name : Expression)
| CallExpression (expression : Expression) (arguments : list Expression)
| OtherExpression (kind : positive).

Definition isIdentifier (node : Expression) : bool :=
  match node with
  | Identifier _ => true
  | _ => false
  end.

Definition isPropertyAccessExpression (node : Expression) : bool :=
  match node with
  | PropertyAccessExpression _ _ => true
  | _ => false
  end.

End tsAst.

Module hostGuards.

(** The type [DecoratorIdentifier = ts.Identifier | NamespacedIdentifier],
    where [NamespacedIdentifier] is a property access whose [expression]
    and [name] are identifiers, as a predicate on expressions. *)
Inductive DecoratorIdentifier : tsAst.Expression -> Prop :=
| IsIdentifier (text : string) :
    DecoratorIdentifier (tsAst.Identifier text)
| IsNamespacedIdentifier (expression name : string) :
    DecoratorIdentifier
      (tsAst.PropertyAccessExpression (tsAst.Identifier expression)
                                      (tsAst.Identifier name)).

(** The type guard [isDecoratorIdentifier]. *)
Definition isDecoratorIdentifier (exp : tsAst.Expression) : bool :=
  tsAst.isIdentifier exp
  || match exp with
     | tsAst.PropertyAccessExpression expression name =>
         tsAst.isIdentifier expression && tsAst.isIdentifier name
     | _ => false
     end.

End hostGuards.

(* ================================================================== *)
(** ** More sample inputs *)

Module MoreSamples.

Definition Value : Expression := ReadVarExpr "VALUE".

Definition optionalSkipSelfDep : R3DependencyMetadata :=
  Samples.dep (Some Samples.T1) None true false true.

Definition skipSelfDep : R3DependencyMetadata :=
  Samples.dep (Some Samples.T2) None false false true.

End MoreSamples.

(* ================================================================== *)
(** ** Properties of the dependency compiler *)

Section DependencyFacts.

Variable InjectFlags : core.InjectFlags.

Lemma ToInt32_small (z : Z) :
  - 2 ^ 31 <= z < 2 ^ 31 -> js.ToInt32 z = z.
Proof.
  intros Hz. unfold js.ToInt32.
  rewrite Z.mod_small; lia.
Qed.

Lemma bitor_0_r (z : Z) : js.bitor z 0 = js.ToInt32 z.
Proof.
  unfold js.bitor. change (js.ToInt32 0) with 0. apply Z.lor_0_r.
Qed.

Lemma bitor_0_l (z : Z) : js.bitor 0 z = js.ToInt32 z.
Proof.
  unfold js.bitor. change (js.ToInt32 0) with 0. apply Z.lor_0_l.
Qed.

(** The mask of a dependency that has no qualifier is the default mask,
    and the mask of one that has only [self] is [InjectFlags.Self]. *)
Lemma flags_self_only :
  core.Default InjectFlags = 0 ->
  - 2 ^ 31 <= core.Self InjectFlags < 2 ^ 31 ->
  js.bitor (js.bitor (js.bitor (core.Default InjectFlags)
                               (core.Self InjectFlags)) 0) 0
  = core.Self InjectFlags.
Proof.
  intros HD HS. rewrite HD, bitor_0_l.
  rewrite (ToInt32_small _ HS), (bitor_0_r (core.Self InjectFlags)).
  rewrite (ToInt32_small _ HS), bitor_0_r.
  apply (ToInt32_small _ HS).
Qed.

Lemma flags_none :
  core.Default InjectFlags = 0 ->
  js.bitor (js.bitor (js.bitor (core.Default InjectFlags) 0) 0) 0 = 0.
Proof. intros ->. reflexivity. Qed.

(** Every element of the compiled argument array is the compilation of the
    dependency at the same position, with that position as its index. *)
Lemma injectDependenciesFrom_nth (deps : list R3DependencyMetadata)
      (target : FactoryTarget) :
  forall (start i : nat),
    nth_error (injectDependenciesFrom InjectFlags start deps target) i =
    option_map
      (fun dep =>
         compileInjectDependency InjectFlags dep target (Z.of_nat (start + i)))
      (nth_error deps i).
Proof.
  induction deps as [|dep rest IH]; intros start i.
  - destruct i; reflexivity.
  - destruct i as [|i]; simpl.
    + now rewrite Nat.add_0_r.
    + rewrite IH. now replace (S start + i)%nat with (start + S i)%nat by lia.
Qed.

Lemma injectDependencies_nth (deps : list R3DependencyMetadata)
      (target : FactoryTarget) (i : nat) :
  nth_error (injectDependencies InjectFlags deps target) i =
  option_map
    (fun dep => compileInjectDependency InjectFlags dep target (Z.of_nat i))
    (nth_error deps i).
Proof. unfold injectDependencies. now rewrite injectDependenciesFrom_nth. Qed.

Lemma injectDependenciesFrom_length (deps : list R3DependencyMetadata)
      (target : FactoryTarget) :
  forall start,
    List.length (injectDependenciesFrom InjectFlags start deps target)
    = List.length deps.
Proof.
  induction deps as [|dep rest IH]; intros start; simpl; [|rewrite IH];
    reflexivity.
Qed.

(** A compiled dependency is [undefined], or a call of one of three table
    entries on the token and literals. *)
Lemma compileInjectDependency_references (id : R3.Identifier)
      (dep : R3DependencyMetadata) (target : FactoryTarget) (index : Z) :
  id <> R3.invalidFactoryDep -> id <> R3.directiveInject ->
  id <> R3.inject ->
  match compileInjectDependency InjectFlags dep target index with
  | Some e => countReference id e
  | None => 0%nat
  end
  = match attributeNameType dep, token dep with
    | None, Some tok => countReference id tok
    | _, _ => 0%nat
    end.
Proof.
  intros H1 H2 H3. unfold compileInjectDependency.
  destruct (token dep) as [tok|], (attributeNameType dep) as [a|];
    try reflexivity.
  - cbv zeta.
    destruct (negb _ || optional dep); destruct target; destruct id;
      try congruence; cbn; lia.
  - destruct id; try congruence; reflexivity.
  - destruct id; try congruence; reflexivity.
Qed.

Lemma injectDependenciesFrom_references (id : R3.Identifier)
      (deps : list R3DependencyMetadata) (target : FactoryTarget) :
  id <> R3.invalidFactoryDep -> id <> R3.directiveInject ->
  id <> R3.inject ->
  countTokenReferences id deps = 0%nat ->
  forall start,
    countArgs (isReference id) (fun _ => 0%nat)
              (injectDependenciesFrom InjectFlags start deps target) = 0%nat.
Proof.
  intros H1 H2 H3. unfold countTokenReferences, countArgs.
  induction deps as [|dep rest IH]; intros Hfresh start; [reflexivity|].
  cbn [injectDependenciesFrom map sum fold_right] in *.
  apply Nat.eq_add_0 in Hfresh as [Hdep Hrest].
  fold (countReference id).
  rewrite (compileInjectDependency_references id dep target _ H1 H2 H3).
  unfold sum in IH. rewrite (IH Hrest).
  destruct (attributeNameType dep), (token dep); lia.
Qed.

(** The two cases of the flag parameter that the claims single out. *)
Lemma compileInjectDependency_self_only (dep : R3DependencyMetadata)
      (tok : Expression) (target : FactoryTarget) (index : Z) :
  token dep = Some tok -> attributeNameType dep = None ->
  core.Default InjectFlags = 0 ->
  - 2 ^ 31 <= core.Self InjectFlags < 2 ^ 31 ->
  core.Self InjectFlags <> 0 ->
  self dep = true -> skipSelf dep = false -> optional dep = false ->
  compileInjectDependency InjectFlags dep target index
  = Some (callFn (importExpr (getInjectFn target) None)
                 [Some tok;
                  Some (literal (LitNumber (core.Self InjectFlags)))]
                 false).
Proof.
  intros Htok Hattr HD HS HS0 Hs Hk Ho.
  unfold compileInjectDependency. rewrite Htok, Hattr, Hs, Hk, Ho.
  rewrite (flags_self_only HD HS), HD.
  destruct (Z.eqb_spec (core.Self InjectFlags) 0) as [E|_]; [contradiction|].
  reflexivity.
Qed.

Lemma compileInjectDependency_no_qualifier (dep : R3DependencyMetadata)
      (tok : Expression) (target : FactoryTarget) (index : Z) :
  token dep = Some tok -> attributeNameType dep = None ->
  core.Default InjectFlags = 0 ->
  self dep = false -> skipSelf dep = false -> optional dep = false ->
  compileInjectDependency InjectFlags dep target index
  = Some (callFn (importExpr (getInjectFn target) None) [Some tok] false).
Proof.
  intros Htok Hattr HD Hs Hk Ho.
  unfold compileInjectDependency. rewrite Htok, Hattr, Hs, Hk, Ho.
  rewrite (flags_none HD), HD. reflexivity.
Qed.

End DependencyFacts.

(* ================================================================== *)
(** ** Compiling one dependency *)

(** C1 (code defect).  [compileInjectDependency] has no branch for a
    dependency whose token and attribute-name type are both present: it
    returns [undefined], whatever the qualifiers, the target and the index.
    The factory compiled from such a dependency passes [undefined] as the
    constructor argument; no invalid-factory stub is emitted for it. *)
Theorem compileInjectDependency_attribute_undefined :
  (forall InjectFlags tok attr o s k target index,
      compileInjectDependency InjectFlags
        (Samples.dep (Some tok) (Some attr) o s k) target index = None)
  /\ util.expression
       (Samples.compile
          (R3ConstructorFactory
             (Samples.meta (DepsList [Samples.attributeDep]) Directive)))
     = fn [mkFnParam "t" DYNAMIC_TYPE]
          [ReturnStatement
             (InstantiateExpr
                (BinaryOperatorExpr Or (variable "t") Samples.MyClass)
                [None])]
          (Some INFERRED_TYPE) (Some "MyClass_Factory").
Proof. split; [intros; reflexivity | reflexivity]. Qed.

(** C5.  For a dependency with a token and no attribute-name type, compiled
    against a flag table whose default mask is empty and whose [Self] flag
    is a non-zero 32-bit value: with qualifiers [self] only, the injection
    call takes the token and the literal mask [InjectFlags.Self]; with no
    qualifier, it takes the token alone. *)
Theorem compileInjectDependency_flags :
  forall InjectFlags dep tok target index,
    token dep = Some tok ->
    attributeNameType dep = None ->
    core.Default InjectFlags = 0 ->
    - 2 ^ 31 <= core.Self InjectFlags < 2 ^ 31 ->
    core.Self InjectFlags <> 0 ->
    (self dep = true -> skipSelf dep = false -> optional dep = false ->
     compileInjectDependency InjectFlags dep target index
     = Some (callFn (importExpr (getInjectFn target) None)
                    [Some tok;
                     Some (literal (LitNumber (core.Self InjectFlags)))]
                    false))
    /\
    (self dep = false -> skipSelf dep = false -> optional dep = false ->
     compileInjectDependency InjectFlags dep target index
     = Some (callFn (importExpr (getInjectFn target) None) [Some tok] false)).
Proof.
  intros IF dep tok target index Htok Hattr HD HS HS0. split; intros.
  - now apply compileInjectDependency_self_only.
  - now apply compileInjectDependency_no_qualifier.
Qed.

Lemma compileInjectDependency_flags_witness :
  compileInjectDependency core.bitmask Samples.selfDep Injectable 0
  = Some (callFn (importExpr R3.inject None)
                 [Some Samples.T1; Some (literal (LitNumber 2))] false)
  /\ compileInjectDependency core.bitmask Samples.plainDep Component 3
     = Some (callFn (importExpr R3.directiveInject None)
                    [Some Samples.T1] false).
Proof.
  split.
  - apply (compileInjectDependency_flags core.bitmask Samples.selfDep
             Samples.T1 Injectable 0);
      simpl; (reflexivity || lia).
  - apply (compileInjectDependency_flags core.bitmask Samples.plainDep
             Samples.T1 Component 3);
      simpl; (reflexivity || lia).
Defined.

(** C6.  In every dependency list, at every index [i] whose dependency has
    no token, the [i]-th compiled argument is the call
    [invalidFactoryDep(i)].  The other dependencies play no part: the
    compiled array has the length of the list and its [j]-th element is the
    compilation of the [j]-th dependency alone, with index [j]. *)
Theorem injectDependencies_invalid_index :
  forall InjectFlags deps target,
    (forall i dep,
        nth_error deps i = Some dep ->
        token dep = None ->
        nth_error (injectDependencies InjectFlags deps target) i
        = Some (Some (callFn (importExpr R3.invalidFactoryDep None)
                             [Some (literal (LitNumber (Z.of_nat i)))]
                             false)))
    /\ List.length (injectDependencies InjectFlags deps target)
       = List.length deps
    /\ (forall j,
           nth_error (injectDependencies InjectFlags deps target) j
           = option_map
               (fun dep =>
                  compileInjectDependency InjectFlags dep target (Z.of_nat j))
               (nth_error deps j)).
Proof.
  intros IF deps target. repeat split.
  - intros i dep Hi Htok.
    rewrite injectDependencies_nth, Hi. simpl.
    unfold compileInjectDependency. now rewrite Htok.
  - apply injectDependenciesFrom_length.
  - apply injectDependencies_nth.
Qed.

Lemma injectDependencies_invalid_index_witness :
  nth_error
    (injectDependencies core.bitmask
       [Samples.plainDep; Samples.attributeDep; Samples.unresolvedDep]
       Injectable) 2
  = Some (Some (callFn (importExpr R3.invalidFactoryDep None)
                       [Some (literal (LitNumber 2))] false)).
Proof.
  apply (proj1 (injectDependencies_invalid_index core.bitmask
                  [Samples.plainDep; Samples.attributeDep;
                   Samples.unresolvedDep] Injectable)
               2%nat Samples.unresolvedDep);
    reflexivity.
Defined.

(** C7 (code defect).  A dependency that has a token and an
    attribute-name type gets no injection call at all, for any target:
    its compilation is not a call of the injection function of the target,
    and the compiled argument array holds [undefined] in its place. *)
Theorem compileInjectDependency_attribute_no_injector :
  (forall InjectFlags tok attr o s k target index args,
      compileInjectDependency InjectFlags
        (Samples.dep (Some tok) (Some attr) o s k) target index
      <> Some (callFn (importExpr (getInjectFn target) None) args false))
  /\ token Samples.attributeDep <> None
  /\ injectDependencies core.bitmask [Samples.attributeDep] Directive
     = [None]
  /\ injectDependencies core.bitmask [Samples.attributeDep] Injectable
     = [None].
Proof.
  split; [intros; discriminate|].
  split; [discriminate|]. split; reflexivity.
Qed.

(** Where an injection call is compiled, its function is chosen from the
    target alone: [directiveInject] for Directive, Component and Pipe,
    [inject] for Injectable and NgModule.  Every call compiled for a
    dependency that has a token is a call of that function, and a
    dependency with a token and no attribute-name type does compile to
    such a call, on the token first.  For target Injectable and the single
    dependency [{token: T1, self: true, skipSelf: false, optional:
    false}] the compiled call is [inject(T1, InjectFlags.Self)]. *)
Theorem getInjectFn_by_target :
  (getInjectFn Directive = R3.directiveInject
   /\ getInjectFn Component = R3.directiveInject
   /\ getInjectFn Pipe = R3.directiveInject
   /\ getInjectFn Injectable = R3.inject
   /\ getInjectFn NgModule = R3.inject)
  /\ (forall InjectFlags dep target index e,
         token dep <> None ->
         compileInjectDependency InjectFlags dep target index = Some e ->
         exists args,
           e = callFn (importExpr (getInjectFn target) None) args false)
  /\ (forall InjectFlags dep tok target index,
         token dep = Some tok ->
         attributeNameType dep = None ->
         exists rest,
           compileInjectDependency InjectFlags dep target index
           = Some (callFn (importExpr (getInjectFn target) None)
                          (Some tok :: rest) false))
  /\ (forall InjectFlags T1,
         core.Default InjectFlags = 0 ->
         - 2 ^ 31 <= core.Self InjectFlags < 2 ^ 31 ->
         core.Self InjectFlags <> 0 ->
         injectDependencies InjectFlags
           [Samples.dep (Some T1) None false true false] Injectable
         = [Some (callFn (importExpr R3.inject None)
                         [Some T1;
                          Some (literal (LitNumber (core.Self InjectFlags)))]
                         false)]).
Proof.
  split; [repeat split|]. split; [|split].
  - intros IF dep target index e Htok. unfold compileInjectDependency.
    destruct (token dep) as [tok|]; [|contradiction].
    destruct (attributeNameType dep); [discriminate|].
    cbv zeta. intros [= <-]. eexists. reflexivity.
  - intros IF dep tok target index Htok Hattr.
    unfold compileInjectDependency. rewrite Htok, Hattr. cbv zeta.
    destruct (negb _ || optional dep); eexists; reflexivity.
  - intros IF T1 HD HS HS0. unfold injectDependencies. simpl.
    f_equal. now apply compileInjectDependency_self_only.
Qed.

Lemma getInjectFn_by_target_witness :
  injectDependencies core.bitmask [Samples.selfDep] Injectable
  = [Some (callFn (importExpr R3.inject None)
                  [Some Samples.T1; Some (literal (LitNumber 2))] false)].
Proof.
  apply (proj2 (proj2 (proj2 getInjectFn_by_target)) core.bitmask Samples.T1);
    simpl; (reflexivity || lia).
Defined.

(* ================================================================== *)
(** ** The declared factory type *)

Lemma createCtorDepType_reading (dep : R3DependencyMetadata) :
  createCtorDepType dep =
  if hasQualifier dep
  then Some (literalMap (map qualifierEntry (qualifierKeys dep)))
  else None.
Proof.
  unfold createCtorDepType, hasQualifier, qualifierKeys.
  destruct (optional dep), (self dep), (skipSelf dep); reflexivity.
Qed.

Lemma ctorDepsTypeStep_reading (hasTypes : bool)
      (dep : R3DependencyMetadata) :
  ctorDepsTypeStep hasTypes dep =
  (hasTypes || hasQualifier dep, ctorDepTypeElement dep).
Proof.
  unfold ctorDepsTypeStep, ctorDepTypeElement.
  rewrite createCtorDepType_reading.
  destruct (hasQualifier dep), hasTypes; reflexivity.
Qed.

(** The flag [hasTypes] ends up set exactly when it was set before or some
    dependency has a qualifier. *)
Lemma ctorDepsTypeMap_reading (deps : list R3DependencyMetadata) :
  forall hasTypes,
    ctorDepsTypeMap hasTypes deps =
    (hasTypes || existsb hasQualifier deps, map ctorDepTypeElement deps).
Proof.
  induction deps as [|dep rest IH]; intros hasTypes; simpl.
  - now rewrite orb_false_r.
  - rewrite ctorDepsTypeStep_reading, IH. now rewrite orb_assoc.
Qed.

Lemma createCtorDepsType_reading (deps : list R3DependencyMetadata) :
  createCtorDepsType deps = ctorDepsTypeOf (DepsList deps).
Proof.
  unfold createCtorDepsType. now rewrite ctorDepsTypeMap_reading.
Qed.

(** C8 (as amended).  Every compilation also yields the declared factory
    type [FactoryDeclaration<T, D>], where [T] is the constructed type with
    its generic arity.  When [deps] is a list in which some dependency has
    a qualifier, [D] is an array type with one element per dependency, in
    order: the record of exactly the qualifiers that are set, each as
    [key: true], or [null] for a dependency without qualifiers.  Otherwise
    ([deps] invalid or absent, or no dependency with a qualifier) [D] is the
    none type.  A record is never empty. *)
Theorem createFactoryType_shape :
  forall InjectFlags typeWithParameters meta,
    util.compiledType
      (compileFactoryFunction InjectFlags typeWithParameters meta)
    = expressionType
        (importExpr R3.FactoryDeclaration
           (Some [typeWithParameters (util.type (type (base meta)))
                                     (typeArgumentCount (base meta));
                  ctorDepsTypeOf (deps (base meta))]))
        None
    /\ (forall dep key,
           In key (qualifierKeys dep) <->
           (key = "optional" /\ optional dep = true)
           \/ (key = "self" /\ self dep = true)
           \/ (key = "skipSelf" /\ skipSelf dep = true))
    /\ (forall dep, hasQualifier dep = true <-> qualifierKeys dep <> []).
Proof.
  intros IF twp meta. split; [|split].
  - unfold compileFactoryFunction.
    destruct (deps (base meta)) as [l| |] eqn:Hdeps;
      destruct meta; simpl in *; unfold createFactoryType; simpl;
      rewrite Hdeps; rewrite ?createCtorDepsType_reading; reflexivity.
  - intros dep key. unfold qualifierKeys.
    destruct (optional dep), (self dep), (skipSelf dep); simpl;
      intuition (try discriminate; try contradiction; auto).
  - intros dep. unfold hasQualifier, qualifierKeys.
    destruct (optional dep), (self dep), (skipSelf dep); simpl;
      split; intros H; try discriminate; try reflexivity;
      exfalso; apply H; reflexivity.
Qed.

(** C8 (as stated) fails: for a constructor whose only dependency has no
    qualifier the second type argument is the none type, not an array
    holding a [null] placeholder. *)
Lemma createFactoryType_no_array_without_qualifier :
  util.compiledType
    (Samples.compile
       (R3ConstructorFactory
          (Samples.meta (DepsList [Samples.plainDep]) Injectable)))
  = expressionType
      (importExpr R3.FactoryDeclaration
         (Some [util.typeWithParameters Samples.MyClass 0; NONE_TYPE]))
      None
  /\ util.compiledType
       (Samples.compile
          (R3ConstructorFactory
             (Samples.meta (DepsList [Samples.plainDep]) Injectable)))
     <> expressionType
          (importExpr R3.FactoryDeclaration
             (Some [util.typeWithParameters Samples.MyClass 0;
                    expressionType (literalArr [literal LitNull]) None]))
          None.
Proof. split; [reflexivity | discriminate]. Qed.

(* ================================================================== *)
(** ** Decorators *)

(** A decorator of the closed union, read as an object, conforms to the
    interface of its variant. *)
Lemma ofDecorator_conforms (d : host.Decorator) :
  hostObjects.isDecorator (hostObjects.ofDecorator d) = true
  /\ hostObjects.isConcreteDecorator (hostObjects.ofDecorator d)
     = match d with
       | host.ConcreteDecorator _ _ _ _ _ => true
       | host.SyntheticDecorator _ _ _ _ => false
       end.
Proof. destruct d; split; reflexivity. Qed.

(** C9 (as amended).  Every object of type [Decorator] conforms to exactly
    one of the two interfaces: either it is concrete, with an identifier
    and a node, and is not synthetic; or it is synthetic, with neither
    identifier nor node and with [synthesizedFor], and is not concrete.
    Nothing is said of [synthesizedFor] on a concrete decorator. *)
Theorem Decorator_exactly_one_interface :
  forall o : hostObjects.DecoratorObject,
    hostObjects.isDecorator o = true ->
    (hostObjects.isConcreteDecorator o = true
     /\ hostObjects.isSyntheticDecorator o = false
     /\ hostObjects.identifier o <> None
     /\ hostObjects.node o <> None)
    \/ (hostObjects.isSyntheticDecorator o = true
        /\ hostObjects.isConcreteDecorator o = false
        /\ hostObjects.identifier o = None
        /\ hostObjects.node o = None
        /\ hostObjects.synthesizedFor o <> None).
Proof.
  intros o. unfold hostObjects.isDecorator, hostObjects.isConcreteDecorator,
    hostObjects.isSyntheticDecorator.
  destruct (hostObjects.identifier o) as [i|],
           (hostObjects.node o) as [n|],
           (hostObjects.synthesizedFor o) as [sf|];
    simpl; intros H; try discriminate H.
  - left. repeat split; discriminate.
  - left. repeat split; discriminate.
  - right. repeat split; discriminate.
Qed.

Lemma Decorator_exactly_one_interface_witness :
  hostObjects.isSyntheticDecorator hostObjects.syntheticSample = true
  /\ hostObjects.isConcreteDecorator hostObjects.syntheticSample = false.
Proof.
  destruct (Decorator_exactly_one_interface hostObjects.syntheticSample
              eq_refl)
    as [(Hc & _) | (Hs & Hc & _)].
  - discriminate Hc.
  - exact (conj Hs Hc).
Defined.

(** C9 (as stated) fails: the interfaces are open, so an object with an
    identifier, a node and a [synthesizedFor] property is a concrete
    decorator, and it has neither of the two shapes of the claim. *)
Lemma Decorator_concrete_with_synthesizedFor :
  hostObjects.isDecorator hostObjects.concreteWithSynthesizedFor = true
  /\ hostObjects.isConcreteDecorator hostObjects.concreteWithSynthesizedFor
     = true
  /\ ~ ((hostObjects.identifier hostObjects.concreteWithSynthesizedFor
         <> None
         /\ hostObjects.node hostObjects.concreteWithSynthesizedFor <> None
         /\ hostObjects.synthesizedFor
              hostObjects.concreteWithSynthesizedFor = None)
        \/ (hostObjects.identifier hostObjects.concreteWithSynthesizedFor
            = None
            /\ hostObjects.node hostObjects.concreteWithSynthesizedFor
               = None
            /\ hostObjects.synthesizedFor
                 hostObjects.concreteWithSynthesizedFor <> None)).
Proof.
  split; [reflexivity|]. split; [reflexivity|].
  intros [(_ & _ & H) | (H & _)]; discriminate H.
Qed.

(** C10.  [Decorator.nodeForError] returns a node for every decorator: the
    decorator's own node when it is concrete, the node it was synthesized
    for when it is synthetic. *)
Theorem nodeForError_defined :
  forall d : host.Decorator,
    exists n : ts.Node,
      host.nodeForError d = Some n
      /\ match d with
         | host.ConcreteDecorator _ _ _ nd _ => n = nd
         | host.SyntheticDecorator _ _ _ s => n = s
         end.
Proof.
  intros [n i im nd a | n im a s]; eexists; split; reflexivity.
Qed.

(* ================================================================== *)
(** ** Counting nodes: the equations of [count] *)

Section CountFacts.

Variable pe : Expression -> nat.
Variable ps : Statement -> nat.

Lemma sum_app (l1 l2 : list nat) : sum (l1 ++ l2) = (sum l1 + sum l2)%nat.
Proof.
  unfold sum. induction l1 as [|n l1 IH]; simpl; [reflexivity|].
  rewrite IH. lia.
Qed.

Lemma count_ReadVarExpr n :
  count pe ps (ReadVarExpr n) = (pe (ReadVarExpr n) + 0)%nat.
Proof. reflexivity. Qed.

Lemma count_WriteVarExpr n v :
  count pe ps (WriteVarExpr n v)
  = (pe (WriteVarExpr n v) + count pe ps v)%nat.
Proof. reflexivity. Qed.

Lemma count_InvokeFunctionExpr f args p :
  count pe ps (InvokeFunctionExpr f args p)
  = (pe (InvokeFunctionExpr f args p)
     + (count pe ps f + countArgs pe ps args))%nat.
Proof. reflexivity. Qed.

Lemma count_InstantiateExpr c args :
  count pe ps (InstantiateExpr c args)
  = (pe (InstantiateExpr c args)
     + (count pe ps c + countArgs pe ps args))%nat.
Proof. reflexivity. Qed.

Lemma count_LiteralExpr v :
  count pe ps (LiteralExpr v) = (pe (LiteralExpr v) + 0)%nat.
Proof. reflexivity. Qed.

Lemma count_ExternalExpr_plain r :
  count pe ps (ExternalExpr r None) = (pe (ExternalExpr r None) + 0)%nat.
Proof. reflexivity. Qed.

Lemma count_BinaryOperatorExpr op a b :
  count pe ps (BinaryOperatorExpr op a b)
  = (pe (BinaryOperatorExpr op a b) + (count pe ps a + count pe ps b))%nat.
Proof. reflexivity. Qed.

Lemma count_FunctionExpr params body ty n :
  count pe ps (FunctionExpr params body ty n)
  = (pe (FunctionExpr params body ty n)
     + (sum (map (fun p => match p with
                           | mkFnParam _ t => countType pe ps t
                           end) params)
        + countStmts pe ps body
        + match ty with Some t => countType pe ps t | None => 0 end))%nat.
Proof. reflexivity. Qed.

Lemma countType_BuiltinType n : countType pe ps (BuiltinType n) = 0%nat.
Proof. reflexivity. Qed.

Lemma countStmt_DeclareVarStmt n v :
  countStmt pe ps (DeclareVarStmt n v)
  = (ps (DeclareVarStmt n v)
     + match v with Some x => count pe ps x | None => 0 end)%nat.
Proof. reflexivity. Qed.

Lemma countStmt_ExpressionStatement e :
  countStmt pe ps (ExpressionStatement e)
  = (ps (ExpressionStatement e) + count pe ps e)%nat.
Proof. reflexivity. Qed.

Lemma countStmt_ReturnStatement e :
  countStmt pe ps (ReturnStatement e)
  = (ps (ReturnStatement e) + count pe ps e)%nat.
Proof. reflexivity. Qed.

Lemma countStmt_IfStmt c a b :
  countStmt pe ps (IfStmt c a b)
  = (ps (IfStmt c a b)
     + (count pe ps c + countStmts pe ps a + countStmts pe ps b))%nat.
Proof. reflexivity. Qed.

Lemma countStmts_nil : countStmts pe ps [] = 0%nat.
Proof. reflexivity. Qed.

Lemma countStmts_cons s l :
  countStmts pe ps (s :: l) = (countStmt pe ps s + countStmts pe ps l)%nat.
Proof. reflexivity. Qed.

Lemma countStmts_app l1 l2 :
  countStmts pe ps (l1 ++ l2)
  = (countStmts pe ps l1 + countStmts pe ps l2)%nat.
Proof. unfold countStmts. now rewrite map_app, sum_app. Qed.

Lemma countArgs_nil : countArgs pe ps [] = 0%nat.
Proof. reflexivity. Qed.

Lemma countArgs_cons a l :
  countArgs pe ps (a :: l)
  = (match a with Some x => count pe ps x | None => 0 end
     + countArgs pe ps l)%nat.
Proof. reflexivity. Qed.

End CountFacts.

Create Rewrite HintDb count.

#[export] Hint Rewrite
  count_ReadVarExpr count_WriteVarExpr count_InvokeFunctionExpr
  count_InstantiateExpr count_LiteralExpr count_ExternalExpr_plain
  count_BinaryOperatorExpr count_FunctionExpr countType_BuiltinType
  countStmt_DeclareVarStmt countStmt_ExpressionStatement
  countStmt_ReturnStatement countStmt_IfStmt countStmts_nil countStmts_cons
  countStmts_app countArgs_nil countArgs_cons : count.

(** Unfold the builders and count the nodes of a built term. *)
Ltac count_nodes :=
  unfold callFn, fn, set, variable, importExpr, toStmt, toDeclStmt, ifStmt,
    literal, NULL_EXPR, DYNAMIC_TYPE, INFERRED_TYPE;
  autorewrite with count;
  cbn [map sum fold_right isReference R3.eqb Nat.add];
  autorewrite with count.

(* ================================================================== *)
(** ** The factory function *)

Section FactoryFacts.

Variable InjectFlags : core.InjectFlags.
Variable typeWithParameters : Expression -> Z -> Type_.

Lemma baseFactoryName_not_t (meta : R3FactoryMetadata) :
  baseFactoryName meta <> "t".
Proof. unfold baseFactoryName. simpl. discriminate. Qed.

Lemma baseFactoryName_not_r (meta : R3FactoryMetadata) :
  baseFactoryName meta <> "r".
Proof. unfold baseFactoryName. simpl. discriminate. Qed.

(** The factory compiled from metadata without a constructor. *)
Lemma compile_inherited (meta : R3FactoryMetadata) :
  deps (base meta) = DepsNull ->
  let memo := baseFactoryName meta in
  let resolve :=
    BinaryOperatorExpr Or (variable memo)
      (set memo (callFn (importExpr R3.getInheritedFactory None)
                        [Some (internalType (base meta))] false)) in
  let pre :=
    match meta with
    | R3ConstructorFactory _ => []
    | R3DelegatedFnOrClass b delegate delegateType delegateDeps =>
        [toDeclStmt "r" NULL_EXPR;
         ifStmt (variable "t")
           [toStmt (set "r" (callFn (variable memo) [Some (variable "t")]
                                    false))]
           [toStmt (set "r" (delegateCall InjectFlags (target b) delegate
                                          delegateType delegateDeps))]]
    | R3ExpressionFactory _ expression =>
        [toDeclStmt "r" NULL_EXPR;
         ifStmt (variable "t")
           [toStmt (set "r" (callFn (variable memo) [Some (typeForCtor meta)]
                                    false))]
           [toStmt (set "r" expression)]]
    end in
  util.expression
    (compileFactoryFunction InjectFlags typeWithParameters meta) =
  callFn
    (fn []
        [DeclareVarStmt memo None;
         ReturnStatement
           (fn [mkFnParam "t" DYNAMIC_TYPE]
               (pre ++
                [ReturnStatement
                   (callFn resolve [Some (typeForCtor meta)] false)])
               (Some INFERRED_TYPE)
               (Some (name (base meta) ++ "_Factory")%string))]
        None None)
    [] true.
Proof.
  intros Hdeps. unfold compileFactoryFunction.
  destruct meta as [b | b delegate [|] delegateDeps | b expression];
    simpl in Hdeps |- *; rewrite Hdeps; reflexivity.
Qed.

End FactoryFacts.

Section FactoryTheorems.

Variable InjectFlags : core.InjectFlags.
Variable typeWithParameters : Expression -> Z -> Type_.

(** With metadata that never mentions [getInheritedFactory], the factory
    compiled for a class without constructor mentions it once. *)
Lemma compile_inherited_references (meta : R3FactoryMetadata) :
  deps (base meta) = DepsNull ->
  countMetaReferences R3.getInheritedFactory meta = 0%nat ->
  countReference R3.getInheritedFactory
    (util.expression
       (compileFactoryFunction InjectFlags typeWithParameters meta))
  = 1%nat.
Proof.
  intros Hdeps Hfresh.
  rewrite (compile_inherited InjectFlags typeWithParameters meta Hdeps).
  unfold countMetaReferences in Hfresh. rewrite Hdeps in Hfresh.
  destruct meta as [b | b delegate dt delegateDeps | b expression];
    simpl in Hdeps, Hfresh; unfold countReference in *; cbv zeta;
    unfold typeForCtor, delegateCall; simpl isDelegatedFactoryMetadata;
    cbn [negb base app].
  - count_nodes. lia.
  - assert (Hargs :
      countArgs (isReference R3.getInheritedFactory) (fun _ => 0%nat)
        (injectDependencies InjectFlags delegateDeps (target b)) = 0%nat).
    { apply injectDependenciesFrom_references; try discriminate. lia. }
    destruct dt; count_nodes; rewrite Hargs; lia.
  - count_nodes. lia.
Qed.

(** C2.  When [deps] is ['invalid'] and the metadata is neither delegated
    nor an expression factory, the factory is the function whose whole body
    is the statement [invalidFactory()]: it holds no [new] expression and
    no branch. *)
Theorem compileFactoryFunction_invalid_deps :
  forall meta,
    deps (base meta) = DepsInvalid ->
    isDelegatedFactoryMetadata meta = false ->
    isExpressionFactoryMetadata meta = false ->
    let e :=
      util.expression
        (compileFactoryFunction InjectFlags typeWithParameters meta) in
    e = fn [mkFnParam "t" DYNAMIC_TYPE]
           [toStmt (callFn (importExpr R3.invalidFactory None) [] false)]
           (Some INFERRED_TYPE)
           (Some (name (base meta) ++ "_Factory")%string)
    /\ countInstantiate e = 0%nat
    /\ countConditional e = 0%nat.
Proof.
  intros meta Hdeps Hd He.
  destruct meta as [b | b delegate dt delegateDeps | b expression];
    try discriminate.
  simpl in Hdeps. unfold compileFactoryFunction. simpl. rewrite Hdeps.
  repeat split.
Qed.

(** C3.  When [deps] is [null], the factory is the immediately invoked
    closure [(function () { var memo; return function X_Factory(t) { pre;
    return (memo || (memo = getInheritedFactory(internalType)))(T); };
    })()], where the type to construct [T] is [t || internalType] for
    constructor and expression metadata and [t] for delegated metadata.
    The memo variable is declared in the outer closure and is neither the
    parameter [t] nor the variable [r] of the returned function.  For
    constructor metadata [pre] is empty; for delegated and expression
    metadata [pre] is [var r = null; if (t) { r = memo(T) } else { r =
    other }], which calls the memo variable without resolving it.  Unless
    the metadata itself mentions it, [getInheritedFactory] occurs exactly
    once. *)
Theorem compileFactoryFunction_inherited :
  forall meta,
    deps (base meta) = DepsNull ->
    let e :=
      util.expression
        (compileFactoryFunction InjectFlags typeWithParameters meta) in
    let memo := baseFactoryName meta in
    let t := variable "t" in
    let typeToConstruct :=
      match meta with
      | R3DelegatedFnOrClass _ _ _ _ => t
      | R3ConstructorFactory b | R3ExpressionFactory b _ =>
          BinaryOperatorExpr Or t (internalType b)
      end in
    let resolve :=
      BinaryOperatorExpr Or (variable memo)
        (set memo (callFn (importExpr R3.getInheritedFactory None)
                          [Some (internalType (base meta))] false)) in
    let pre :=
      match meta with
      | R3ConstructorFactory _ => []
      | R3DelegatedFnOrClass b delegate delegateType delegateDeps =>
          [toDeclStmt "r" NULL_EXPR;
           ifStmt t
             [toStmt (set "r" (callFn (variable memo) [Some typeToConstruct]
                                      false))]
             [toStmt (set "r" (delegateCall InjectFlags (target b) delegate
                                            delegateType delegateDeps))]]
      | R3ExpressionFactory _ expression =>
          [toDeclStmt "r" NULL_EXPR;
           ifStmt t
             [toStmt (set "r" (callFn (variable memo) [Some typeToConstruct]
                                      false))]
             [toStmt (set "r" expression)]]
      end in
    e = callFn
          (fn []
              [DeclareVarStmt memo None;
               ReturnStatement
                 (fn [mkFnParam "t" DYNAMIC_TYPE]
                     (pre ++
                      [ReturnStatement
                         (callFn resolve [Some typeToConstruct] false)])
                     (Some INFERRED_TYPE)
                     (Some (name (base meta) ++ "_Factory")%string))]
              None None)
          [] true
    /\ memo <> "t"
    /\ memo <> "r"
    /\ (countMetaReferences R3.getInheritedFactory meta = 0%nat ->
        countReference R3.getInheritedFactory e = 1%nat).
Proof.
  intros meta Hdeps. cbv zeta.
  split.
  - rewrite (compile_inherited InjectFlags typeWithParameters meta Hdeps).
    destruct meta; reflexivity.
  - split; [apply baseFactoryName_not_t|].
    split; [apply baseFactoryName_not_r|].
    now apply compile_inherited_references.
Qed.

(** C4 (as amended).  For delegated metadata the type to construct is the
    parameter [t] alone.  When [deps] is a list, the factory is [var r =
    null; if (t) { r = new t(...deps) } else { r = delegate call }; return
    r]; when [deps] is ['invalid'], the branch taken for a supplied [t] is
    the statement [invalidFactory()] instead.  The delegate call is [new
    delegate(...)] for a class and [delegate(...)] for a function, on the
    compiled [delegateDeps]. *)
Theorem compileFactoryFunction_delegated :
  forall b delegate delegateType delegateDeps,
    let meta := R3DelegatedFnOrClass b delegate delegateType delegateDeps in
    let e :=
      util.expression
        (compileFactoryFunction InjectFlags typeWithParameters meta) in
    let delegateArgs :=
      injectDependencies InjectFlags delegateDeps (target b) in
    let other :=
      delegateCall InjectFlags (target b) delegate delegateType
                   delegateDeps in
    typeForCtor meta = variable "t"
    /\ (delegateType = Class -> other = InstantiateExpr delegate delegateArgs)
    /\ (delegateType = Function ->
        other = InvokeFunctionExpr delegate delegateArgs false)
    /\ (forall l,
           deps b = DepsList l ->
           let ctorExpr :=
             InstantiateExpr (variable "t")
               (injectDependencies InjectFlags l (target b)) in
           e = fn [mkFnParam "t" DYNAMIC_TYPE]
                  [toDeclStmt "r" NULL_EXPR;
                   ifStmt (variable "t")
                          [toStmt (set "r" ctorExpr)]
                          [toStmt (set "r" other)];
                   ReturnStatement (variable "r")]
                  (Some INFERRED_TYPE)
                  (Some (name b ++ "_Factory")%string)
           /\ selectsByOverride e ctorExpr other)
    /\ (deps b = DepsInvalid ->
        e = fn [mkFnParam "t" DYNAMIC_TYPE]
               [toDeclStmt "r" NULL_EXPR;
                ifStmt (variable "t")
                       [toStmt (callFn (importExpr R3.invalidFactory None)
                                       [] false)]
                       [toStmt (set "r" other)];
                ReturnStatement (variable "r")]
               (Some INFERRED_TYPE)
               (Some (name b ++ "_Factory")%string)).
Proof.
  intros b delegate delegateType delegateDeps meta e delegateArgs other.
  split; [reflexivity|].
  split; [intros ->; reflexivity|].
  split; [intros ->; reflexivity|].
  split.
  - intros l Hdeps ctorExpr.
    assert (He : e = fn [mkFnParam "t" DYNAMIC_TYPE]
                  [toDeclStmt "r" NULL_EXPR;
                   ifStmt (variable "t")
                          [toStmt (set "r" ctorExpr)]
                          [toStmt (set "r" other)];
                   ReturnStatement (variable "r")]
                  (Some INFERRED_TYPE)
                  (Some (name b ++ "_Factory")%string)).
    { subst e meta other ctorExpr. unfold compileFactoryFunction. simpl.
      rewrite Hdeps. destruct delegateType; reflexivity. }
    split; [exact He|]. rewrite He. do 3 eexists. reflexivity.
  - intros Hdeps. subst e meta other. unfold compileFactoryFunction. simpl.
    rewrite Hdeps. destruct delegateType; reflexivity.
Qed.

End FactoryTheorems.

Lemma compileFactoryFunction_invalid_deps_witness :
  util.expression
    (Samples.compile
       (R3ConstructorFactory (Samples.meta DepsInvalid Injectable)))
  = fn [mkFnParam "t" DYNAMIC_TYPE]
       [toStmt (callFn (importExpr R3.invalidFactory None) [] false)]
       (Some INFERRED_TYPE) (Some "MyClass_Factory").
Proof.
  apply (compileFactoryFunction_invalid_deps core.bitmask
           util.typeWithParameters
           (R3ConstructorFactory (Samples.meta DepsInvalid Injectable)));
    reflexivity.
Defined.

Lemma compileFactoryFunction_inherited_witness :
  countReference R3.getInheritedFactory
    (util.expression
       (Samples.compile
          (R3DelegatedFnOrClass (Samples.meta DepsNull Injectable)
             Samples.Delegate Class [Samples.selfDep])))
  = 1%nat.
Proof.
  destruct (compileFactoryFunction_inherited core.bitmask
              util.typeWithParameters
              (R3DelegatedFnOrClass (Samples.meta DepsNull Injectable)
                 Samples.Delegate Class [Samples.selfDep])
              eq_refl)
    as (_ & _ & _ & Hcount).
  apply Hcount. reflexivity.
Defined.

Lemma compileFactoryFunction_delegated_witness :
  selectsByOverride
    (util.expression
       (Samples.compile
          (R3DelegatedFnOrClass
             (Samples.meta (DepsList [Samples.plainDep]) Injectable)
             Samples.Delegate Class [Samples.selfDep])))
    (InstantiateExpr (variable "t")
       (injectDependencies core.bitmask [Samples.plainDep] Injectable))
    (InstantiateExpr Samples.Delegate
       (injectDependencies core.bitmask [Samples.selfDep] Injectable)).
Proof.
  apply (compileFactoryFunction_delegated core.bitmask
           util.typeWithParameters
           (Samples.meta (DepsList [Samples.plainDep]) Injectable)
           Samples.Delegate Class [Samples.selfDep]).
  reflexivity.
Defined.

(** C4 (as stated) fails.  With [deps = 'invalid'] there is no constructor
    expression to select: the branch for a supplied [t] is the statement
    [invalidFactory()].  With [deps = null] the value returned is the call
    of the base factory, not the selected [r]. *)
Lemma delegated_without_constructor_expression :
  (~ exists ctorExpr nonCtorExpr,
        selectsByOverride
          (util.expression
             (Samples.compile
                (R3DelegatedFnOrClass
                   (Samples.meta DepsInvalid Injectable)
                   Samples.Delegate Class [])))
          ctorExpr nonCtorExpr)
  /\ (~ exists ctorExpr nonCtorExpr,
           selectsByOverride
             (util.expression
                (Samples.compile
                   (R3DelegatedFnOrClass
                      (Samples.meta DepsNull Injectable)
                      Samples.Delegate Class [])))
             ctorExpr nonCtorExpr).
Proof.
  split; intros (c & n & params & ty & nm & H); cbv in H; discriminate H.
Qed.

(** X1.  Delegated metadata without a constructor: the factory assigns [r] in
    both branches, from the not yet resolved memo variable when [t] is
    supplied and from the delegate call otherwise, and then returns the
    call of the memoized base factory on [t]; [r] is not returned. *)
Theorem compileFactoryFunction_delegated_inherited :
  forall InjectFlags typeWithParameters b delegate delegateType delegateDeps,
    deps b = DepsNull ->
    let meta := R3DelegatedFnOrClass b delegate delegateType delegateDeps in
    let memo := baseFactoryName meta in
    util.expression
      (compileFactoryFunction InjectFlags typeWithParameters meta)
    = callFn
        (fn []
            [DeclareVarStmt memo None;
             ReturnStatement
               (fn [mkFnParam "t" DYNAMIC_TYPE]
                   [toDeclStmt "r" NULL_EXPR;
                    ifStmt (variable "t")
                      [toStmt (set "r" (callFn (variable memo)
                                               [Some (variable "t")] false))]
                      [toStmt (set "r" (delegateCall InjectFlags (target b)
                                          delegate delegateType
                                          delegateDeps))];
                    ReturnStatement
                      (callFn
                         (BinaryOperatorExpr Or (variable memo)
                            (set memo
                               (callFn
                                  (importExpr R3.getInheritedFactory None)
                                  [Some (internalType b)] false)))
                         [Some (variable "t")] false)]
                   (Some INFERRED_TYPE)
                   (Some (name b ++ "_Factory")%string))]
            None None)
        [] true.
Proof.
  intros IF twp b delegate delegateType delegateDeps Hdeps meta memo.
  exact (compile_inherited IF twp meta Hdeps).
Qed.

Lemma compileFactoryFunction_delegated_inherited_witness :
  exists body,
    util.expression
      (Samples.compile
         (R3DelegatedFnOrClass (Samples.meta DepsNull Injectable)
            Samples.Delegate Function []))
    = callFn
        (fn []
            [DeclareVarStmt "ɵMyClass_BaseFactory" None;
             ReturnStatement
               (fn [mkFnParam "t" DYNAMIC_TYPE] body (Some INFERRED_TYPE)
                   (Some "MyClass_Factory"))]
            None None)
        [] true.
Proof.
  eexists.
  apply (compileFactoryFunction_delegated_inherited core.bitmask
           util.typeWithParameters (Samples.meta DepsNull Injectable)
           Samples.Delegate Function []).
  reflexivity.
Defined.

(* ================================================================== *)
(** ** The flag parameter of an injection call *)

Section FlagFacts.

Variable InjectFlags : core.InjectFlags.

Lemma lor_range (a b : Z) :
  0 <= a < 2 ^ 31 -> 0 <= b < 2 ^ 31 -> 0 <= Z.lor a b < 2 ^ 31.
Proof.
  intros Ha Hb. split; [apply Z.lor_nonneg; lia|].
  destruct (Z.eq_dec (Z.lor a b) 0) as [E|E]; [rewrite E; lia|].
  assert (0 <= Z.lor a b) by (apply Z.lor_nonneg; lia).
  apply Z.log2_lt_pow2; [lia|].
  rewrite Z.log2_lor by lia.
  apply Z.max_lub_lt.
  - destruct (Z.eq_dec a 0) as [->|]; [simpl; lia|].
    apply Z.log2_lt_pow2; lia.
  - destruct (Z.eq_dec b 0) as [->|]; [simpl; lia|].
    apply Z.log2_lt_pow2; lia.
Qed.

Lemma bitor_range (a b : Z) :
  0 <= a < 2 ^ 31 -> 0 <= b < 2 ^ 31 -> js.bitor a b = Z.lor a b.
Proof.
  intros Ha Hb. unfold js.bitor. rewrite !ToInt32_small; lia.
Qed.

Lemma flag_choice_range (b : bool) (flag : Z) :
  0 < flag < 2 ^ 31 -> 0 <= (if b then flag else 0) < 2 ^ 31.
Proof. destruct b; lia. Qed.

(** On a table in range, the mask that the compiler computes with [|] is
    the union of the chosen flags. *)
Lemma flags_qualifierMask (dep : R3DependencyMetadata) :
  flagsInRange InjectFlags ->
  js.bitor
    (js.bitor
       (js.bitor (core.Default InjectFlags)
                 (if self dep then core.Self InjectFlags else 0))
       (if skipSelf dep then core.SkipSelf InjectFlags else 0))
    (if optional dep then core.Optional InjectFlags else 0)
  = qualifierMask InjectFlags dep.
Proof.
  intros (HD & HS & HK & HO). rewrite HD. unfold qualifierMask.
  pose proof (flag_choice_range (self dep) _ HS) as Hs.
  pose proof (flag_choice_range (skipSelf dep) _ HK) as Hk.
  pose proof (flag_choice_range (optional dep) _ HO) as Ho.
  rewrite (bitor_range 0 _) by lia. rewrite Z.lor_0_l.
  rewrite (bitor_range _ _ Hs Hk).
  now rewrite (bitor_range _ _ (lor_range _ _ Hs Hk) Ho).
Qed.

Lemma qualifierMask_zero (dep : R3DependencyMetadata) :
  flagsInRange InjectFlags ->
  (qualifierMask InjectFlags dep =? 0) = negb (hasQualifier dep).
Proof.
  intros (HD & HS & HK & HO). unfold qualifierMask, hasQualifier.
  destruct (Z.eqb_spec
              (Z.lor (Z.lor (if self dep then core.Self InjectFlags else 0)
                            (if skipSelf dep
                             then core.SkipSelf InjectFlags else 0))
                     (if optional dep
                      then core.Optional InjectFlags else 0)) 0)
    as [E|E].
  - apply Z.lor_eq_0_iff in E as [E Eo].
    apply Z.lor_eq_0_iff in E as [Es Ek].
    destruct (optional dep), (self dep), (skipSelf dep);
      (reflexivity || lia).
  - destruct (optional dep), (self dep), (skipSelf dep); try reflexivity.
    exfalso. apply E. reflexivity.
Qed.

(** On a table whose flags are disjoint, each qualifier is read back from
    the mask by masking with its flag. *)
Lemma qualifierMask_decode (dep : R3DependencyMetadata) :
  flagsDisjoint InjectFlags ->
  Z.land (qualifierMask InjectFlags dep) (core.Self InjectFlags)
  = (if self dep then core.Self InjectFlags else 0)
  /\ Z.land (qualifierMask InjectFlags dep) (core.SkipSelf InjectFlags)
     = (if skipSelf dep then core.SkipSelf InjectFlags else 0)
  /\ Z.land (qualifierMask InjectFlags dep) (core.Optional InjectFlags)
     = (if optional dep then core.Optional InjectFlags else 0).
Proof.
  intros (Hsk & Hso & Hko). unfold qualifierMask.
  assert (Hks := Hsk). rewrite Z.land_comm in Hks.
  assert (Hos := Hso). rewrite Z.land_comm in Hos.
  assert (Hok := Hko). rewrite Z.land_comm in Hok.
  rewrite !Z.land_lor_distr_l.
  destruct (self dep), (skipSelf dep), (optional dep);
    rewrite ?Z.land_diag, ?Z.land_0_l, ?Hsk, ?Hso, ?Hko, ?Hks, ?Hos, ?Hok,
      ?Z.lor_0_l, ?Z.lor_0_r;
    repeat split; reflexivity.
Qed.

Lemma flag_choice_inj (b1 b2 : bool) (flag : Z) :
  flag <> 0 ->
  (if b1 then flag else 0) = (if b2 then flag else 0) -> b1 = b2.
Proof. destruct b1, b2; intros; (reflexivity || congruence). Qed.

Lemma qualifierMask_inj (d1 d2 : R3DependencyMetadata) :
  flagsInRange InjectFlags -> flagsDisjoint InjectFlags ->
  qualifierMask InjectFlags d1 = qualifierMask InjectFlags d2 ->
  qualifiers d1 = qualifiers d2.
Proof.
  intros (HD & HS & HK & HO) Hdis Hmask.
  destruct (qualifierMask_decode d1 Hdis) as (Hs1 & Hk1 & Ho1).
  destruct (qualifierMask_decode d2 Hdis) as (Hs2 & Hk2 & Ho2).
  rewrite Hmask in Hs1, Hk1, Ho1.
  unfold qualifiers.
  rewrite (flag_choice_inj (self d1) (self d2) (core.Self InjectFlags))
    by (lia || congruence).
  rewrite (flag_choice_inj (skipSelf d1) (skipSelf d2)
             (core.SkipSelf InjectFlags)) by (lia || congruence).
  rewrite (flag_choice_inj (optional d1) (optional d2)
             (core.Optional InjectFlags)) by (lia || congruence).
  reflexivity.
Qed.

(** The call compiled for a dependency that has a token and no
    attribute-name type, on a table in range. *)
Lemma compileInjectDependency_mask (dep : R3DependencyMetadata)
      (tok : Expression) (target : FactoryTarget) (index : Z) :
  flagsInRange InjectFlags ->
  token dep = Some tok -> attributeNameType dep = None ->
  compileInjectDependency InjectFlags dep target index
  = Some (callFn (importExpr (getInjectFn target) None)
                 (Some tok ::
                  if hasQualifier dep
                  then [Some (literal
                                (LitNumber (qualifierMask InjectFlags dep)))]
                  else [])
                 false).
Proof.
  intros Hrange Htok Hattr. unfold compileInjectDependency.
  rewrite Htok, Hattr. cbv zeta.
  rewrite (flags_qualifierMask dep Hrange).
  rewrite (proj1 Hrange).
  rewrite (qualifierMask_zero dep Hrange), negb_involutive.
  assert (Hopt : hasQualifier dep || optional dep = hasQualifier dep).
  { unfold hasQualifier. destruct (optional dep), (self dep), (skipSelf dep);
      reflexivity. }
  rewrite Hopt. destruct (hasQualifier dep); reflexivity.
Qed.

End FlagFacts.

(** X2.  On a flag table in range, a dependency with a token and no
    attribute-name type compiles to a call that takes the token alone when
    no qualifier is set, and the token followed by the non-zero mask of
    the set qualifiers otherwise; in particular [optional] alone already
    yields a flag parameter. *)
Theorem compileInjectDependency_flag_parameter :
  forall InjectFlags dep tok target index,
    flagsInRange InjectFlags ->
    token dep = Some tok ->
    attributeNameType dep = None ->
    (hasQualifier dep = false ->
     compileInjectDependency InjectFlags dep target index
     = Some (callFn (importExpr (getInjectFn target) None) [Some tok] false))
    /\ (hasQualifier dep = true ->
        compileInjectDependency InjectFlags dep target index
        = Some (callFn (importExpr (getInjectFn target) None)
                       [Some tok;
                        Some (literal
                                (LitNumber (qualifierMask InjectFlags dep)))]
                       false)
        /\ qualifierMask InjectFlags dep <> 0).
Proof.
  intros IF dep tok target index Hrange Htok Hattr.
  rewrite (compileInjectDependency_mask IF dep tok target index Hrange Htok
             Hattr).
  split; intros Hq; rewrite Hq; [reflexivity|].
  split; [reflexivity|].
  pose proof (qualifierMask_zero IF dep Hrange) as Hz. rewrite Hq in Hz.
  now apply Z.eqb_neq.
Qed.

Lemma compileInjectDependency_flag_parameter_witness :
  compileInjectDependency core.bitmask MoreSamples.optionalSkipSelfDep
    Directive 0
  = Some (callFn (importExpr R3.directiveInject None)
                 [Some Samples.T1; Some (literal (LitNumber 12))] false).
Proof.
  apply (compileInjectDependency_flag_parameter core.bitmask
           MoreSamples.optionalSkipSelfDep Samples.T1 Directive 0);
    try reflexivity.
  unfold flagsInRange. simpl. lia.
Defined.

(** X3.  On a flag table in range whose flags are disjoint, the compiled
    call determines the dependency: two dependencies with tokens and no
    attribute-name type that compile to the same call, for the same
    target, have the same token and the same three qualifiers. *)
Theorem compileInjectDependency_injective :
  forall InjectFlags d1 d2 t1 t2 target i1 i2,
    flagsInRange InjectFlags ->
    flagsDisjoint InjectFlags ->
    token d1 = Some t1 -> attributeNameType d1 = None ->
    token d2 = Some t2 -> attributeNameType d2 = None ->
    compileInjectDependency InjectFlags d1 target i1
    = compileInjectDependency InjectFlags d2 target i2 ->
    t1 = t2 /\ qualifiers d1 = qualifiers d2.
Proof.
  intros IF d1 d2 t1 t2 target i1 i2 Hrange Hdis Ht1 Ha1 Ht2 Ha2.
  rewrite (compileInjectDependency_mask IF d1 t1 target i1 Hrange Ht1 Ha1).
  rewrite (compileInjectDependency_mask IF d2 t2 target i2 Hrange Ht2 Ha2).
  destruct (hasQualifier d1) eqn:Hq1, (hasQualifier d2) eqn:Hq2;
    try discriminate.
  - intros [= Htok Hmask]. split; [assumption|].
    now apply (qualifierMask_inj IF d1 d2 Hrange Hdis).
  - intros [= Htok]. split; [assumption|].
    unfold hasQualifier, qualifiers in *.
    destruct (optional d1), (self d1), (skipSelf d1); try discriminate.
    destruct (optional d2), (self d2), (skipSelf d2); try discriminate.
    reflexivity.
Qed.

Lemma compileInjectDependency_injective_witness :
  Samples.T1 = Samples.T1
  /\ qualifiers MoreSamples.optionalSkipSelfDep
     = qualifiers MoreSamples.optionalSkipSelfDep.
Proof.
  apply (compileInjectDependency_injective core.bitmask
           MoreSamples.optionalSkipSelfDep MoreSamples.optionalSkipSelfDep
           Samples.T1 Samples.T1 Injectable 0 5);
    try reflexivity.
  - unfold flagsInRange. simpl. lia.
  - unfold flagsDisjoint. simpl. auto.
Defined.

(* ================================================================== *)
(** ** Which arguments are defined, and which are stubs *)

Section ArgumentFacts.

Variable InjectFlags : core.InjectFlags.

Lemma compileInjectDependency_undefined_iff (dep : R3DependencyMetadata)
      (target : FactoryTarget) (index : Z) :
  compileInjectDependency InjectFlags dep target index = None
  <-> token dep <> None /\ attributeNameType dep <> None.
Proof.
  unfold compileInjectDependency.
  destruct (token dep) as [tok|], (attributeNameType dep) as [a|];
    cbv zeta; split; try discriminate; try (intros [H1 H2]; congruence).
  intros _. split; discriminate.
Qed.

Lemma injectDependenciesFrom_defined_iff (deps : list R3DependencyMetadata)
      (target : FactoryTarget) :
  forall start,
    Forall (fun a => a <> None)
           (injectDependenciesFrom InjectFlags start deps target)
    <-> Forall (fun dep => token dep = None \/ attributeNameType dep = None)
               deps.
Proof.
  induction deps as [|dep rest IH]; intros start; simpl.
  - split; constructor.
  - split; intros H; inversion H as [|x l Hhead Htail]; subst;
      constructor; try (now apply (IH (S start))).
    + destruct (token dep) eqn:Ht; [|now left].
      destruct (attributeNameType dep) eqn:Ha; [|now right].
      exfalso. apply Hhead. apply compileInjectDependency_undefined_iff.
      rewrite Ht, Ha. split; discriminate.
    + intros Hnone. apply compileInjectDependency_undefined_iff in Hnone.
      destruct Hnone as [Ht Ha]. destruct Hhead; contradiction.
Qed.

(** A compiled dependency mentions [invalidFactoryDep] once when it has no
    token, and as often as its token does otherwise. *)
Lemma compileInjectDependency_stub (dep : R3DependencyMetadata)
      (target : FactoryTarget) (index : Z) :
  match compileInjectDependency InjectFlags dep target index with
  | Some e => countReference R3.invalidFactoryDep e
  | None => 0%nat
  end
  = match token dep, attributeNameType dep with
    | None, _ => 1%nat
    | Some tok, None => countReference R3.invalidFactoryDep tok
    | Some _, Some _ => 0%nat
    end.
Proof.
  unfold compileInjectDependency.
  destruct (token dep) as [tok|], (attributeNameType dep) as [a|];
    try reflexivity.
  cbv zeta. destruct (negb _ || optional dep); destruct target;
    unfold countReference; cbn [app getInjectFn]; count_nodes; lia.
Qed.

(** The nodes counted in a compiled dependency are those of its token, for
    a count that ignores calls, external references and literals. *)
Lemma compileInjectDependency_count (pe : Expression -> nat)
      (ps : Statement -> nat) (dep : R3DependencyMetadata)
      (target : FactoryTarget) (index : Z) :
  (forall f a p, pe (InvokeFunctionExpr f a p) = 0%nat) ->
  (forall r t, pe (ExternalExpr r t) = 0%nat) ->
  (forall v, pe (LiteralExpr v) = 0%nat) ->
  match compileInjectDependency InjectFlags dep target index with
  | Some e => count pe ps e
  | None => 0%nat
  end
  = match attributeNameType dep, token dep with
    | None, Some tok => count pe ps tok
    | _, _ => 0%nat
    end.
Proof.
  intros Hcall Hext Hlit. unfold compileInjectDependency.
  destruct (token dep) as [tok|], (attributeNameType dep) as [a|];
    try reflexivity; cbv zeta.
  - destruct (negb _ || optional dep); cbn [app]; count_nodes;
      rewrite ?Hcall, ?Hext, ?Hlit; lia.
  - count_nodes. rewrite ?Hcall, ?Hext, ?Hlit. reflexivity.
  - count_nodes. rewrite ?Hcall, ?Hext, ?Hlit. reflexivity.
Qed.

Lemma injectDependenciesFrom_count (pe : Expression -> nat)
      (ps : Statement -> nat) (deps : list R3DependencyMetadata)
      (target : FactoryTarget) :
  (forall f a p, pe (InvokeFunctionExpr f a p) = 0%nat) ->
  (forall r t, pe (ExternalExpr r t) = 0%nat) ->
  (forall v, pe (LiteralExpr v) = 0%nat) ->
  forall start,
    countArgs pe ps (injectDependenciesFrom InjectFlags start deps target)
    = sumCompiledTokens (count pe ps) deps.
Proof.
  intros Hcall Hext Hlit.
  induction deps as [|dep rest IH]; intros start; [reflexivity|].
  cbn [injectDependenciesFrom]. rewrite countArgs_cons, IH.
  rewrite (compileInjectDependency_count pe ps dep target _ Hcall Hext Hlit).
  reflexivity.
Qed.

Lemma injectDependenciesFrom_stub_count (deps : list R3DependencyMetadata)
      (target : FactoryTarget) :
  countTokenReferences R3.invalidFactoryDep deps = 0%nat ->
  forall start,
    countArgs (isReference R3.invalidFactoryDep) (fun _ => 0%nat)
              (injectDependenciesFrom InjectFlags start deps target)
    = List.length (unresolved deps).
Proof.
  unfold countTokenReferences.
  induction deps as [|dep rest IH]; intros Hfresh start; [reflexivity|].
  cbn [injectDependenciesFrom map sum fold_right] in *.
  apply Nat.eq_add_0 in Hfresh as [Hdep Hrest].
  rewrite countArgs_cons, (IH Hrest (S start)).
  fold (countReference R3.invalidFactoryDep).
  rewrite compileInjectDependency_stub.
  unfold unresolved. cbn [filter].
  destruct (token dep) as [tok|]; [|reflexivity].
  destruct (attributeNameType dep); simpl; lia.
Qed.

End ArgumentFacts.

(** X4.  The compiled argument array holds no [undefined] exactly when no
    dependency of the list has both a token and an attribute-name type. *)
Theorem injectDependencies_defined_iff :
  forall InjectFlags deps target,
    Forall (fun a => a <> None) (injectDependencies InjectFlags deps target)
    <-> Forall (fun dep => token dep = None \/ attributeNameType dep = None)
               deps.
Proof.
  intros IF deps target. apply injectDependenciesFrom_defined_iff.
Qed.

(** X5.  When no token mentions [invalidFactoryDep], the compiled argument
    array holds exactly one [invalidFactoryDep] stub per dependency without
    token. *)
Theorem injectDependencies_stub_count :
  forall InjectFlags deps target,
    countTokenReferences R3.invalidFactoryDep deps = 0%nat ->
    countArgs (isReference R3.invalidFactoryDep) (fun _ => 0%nat)
              (injectDependencies InjectFlags deps target)
    = List.length (unresolved deps).
Proof.
  intros IF deps target Hfresh. unfold injectDependencies.
  now apply injectDependenciesFrom_stub_count.
Qed.

Lemma injectDependencies_stub_count_witness :
  countArgs (isReference R3.invalidFactoryDep) (fun _ => 0%nat)
    (injectDependencies core.bitmask
       [Samples.unresolvedDep; Samples.selfDep; Samples.attributeDep;
        Samples.unresolvedDep] Pipe)
  = 2%nat.
Proof.
  apply (injectDependencies_stub_count core.bitmask
           [Samples.unresolvedDep; Samples.selfDep; Samples.attributeDep;
            Samples.unresolvedDep] Pipe).
  reflexivity.
Defined.

(* ================================================================== *)
(** ** The factory function, case by case *)

(** Unfold the compiler on metadata whose [deps] is known by [Hd]. *)
Ltac factory_shape Hd :=
  unfold compileFactoryFunction, makeConditionalFactory, typeForCtor;
  cbn [base isDelegatedFactoryMetadata negb];
  rewrite Hd; cbv beta iota zeta; cbn [util.expression app].

Section FactoryCases.

Variable InjectFlags : core.InjectFlags.
Variable typeWithParameters : Expression -> Z -> Type_.

Lemma injectDependencies_fresh (id : R3.Identifier)
      (l : list R3DependencyMetadata) (target : FactoryTarget) :
  id <> R3.invalidFactoryDep -> id <> R3.directiveInject ->
  id <> R3.inject ->
  countTokenReferences id l = 0%nat ->
  countArgs (isReference id) (fun _ => 0%nat)
            (injectDependencies InjectFlags l target) = 0%nat.
Proof.
  intros H1 H2 H3 Hfresh. unfold injectDependencies.
  now apply injectDependenciesFrom_references.
Qed.

Lemma injectDependencies_length (l : list R3DependencyMetadata)
      (target : FactoryTarget) :
  List.length (injectDependencies InjectFlags l target) = List.length l.
Proof. apply injectDependenciesFrom_length. Qed.

Lemma injectDependencies_conditionals (l : list R3DependencyMetadata)
      (target : FactoryTarget) :
  countArgs (fun e => match e with ConditionalExpr _ _ _ => 1 | _ => 0 end)%nat
            (fun s => match s with IfStmt _ _ _ => 1 | _ => 0 end)%nat
            (injectDependencies InjectFlags l target)
  = sumCompiledTokens countConditional l.
Proof.
  unfold injectDependencies.
  now rewrite injectDependenciesFrom_count.
Qed.

End FactoryCases.

(** X6.  When the metadata's own expressions do not mention
    [invalidFactory], the compiled factory calls it exactly once if [deps]
    is ['invalid'] and never otherwise, whatever the variant. *)
Theorem compileFactoryFunction_invalidFactory_count :
  forall InjectFlags typeWithParameters meta,
    countMetaReferences R3.invalidFactory meta = 0%nat ->
    countReference R3.invalidFactory
      (util.expression
         (compileFactoryFunction InjectFlags typeWithParameters meta))
    = match deps (base meta) with
      | DepsInvalid => 1%nat
      | DepsList _ | DepsNull => 0%nat
      end.
Proof.
  intros IF twp meta Hfresh. unfold countMetaReferences in Hfresh.
  destruct meta as [b | b delegate dt delegateDeps | b expression];
    cbn [base] in *; destruct (deps b) as [l| |] eqn:Hd;
    factory_shape Hd; unfold countReference in *; try destruct dt;
    count_nodes;
    rewrite ?(injectDependencies_fresh IF R3.invalidFactory l (target b))
      by (try discriminate; unfold countReference; lia);
    rewrite ?(injectDependencies_fresh IF R3.invalidFactory delegateDeps
                (target b))
      by (try discriminate; unfold countReference; lia);
    lia.
Qed.

Lemma compileFactoryFunction_invalidFactory_count_witness :
  countReference R3.invalidFactory
    (util.expression
       (Samples.compile
          (R3ExpressionFactory (Samples.meta DepsInvalid NgModule)
             MoreSamples.Value)))
  = 1%nat.
Proof.
  apply (compileFactoryFunction_invalidFactory_count core.bitmask
           util.typeWithParameters
           (R3ExpressionFactory (Samples.meta DepsInvalid NgModule)
              MoreSamples.Value)).
  reflexivity.
Defined.

(** X7.  Every compiled factory is a function of the single parameter [t],
    named after the class, with a non-empty body; it is wrapped in the
    closure that declares the base-factory variable exactly when [deps] is
    [null], and is the function itself otherwise. *)
Theorem compileFactoryFunction_wrapper :
  forall InjectFlags typeWithParameters meta,
    exists body,
      let e :=
        util.expression
          (compileFactoryFunction InjectFlags typeWithParameters meta) in
      let factoryFn :=
        fn [mkFnParam "t" DYNAMIC_TYPE] body (Some INFERRED_TYPE)
           (Some (name (base meta) ++ "_Factory")%string) in
      body <> []
      /\ ((deps (base meta) = DepsNull
           /\ e = callFn (fn [] [DeclareVarStmt (baseFactoryName meta) None;
                                 ReturnStatement factoryFn] None None)
                         [] true)
          \/ (deps (base meta) <> DepsNull /\ e = factoryFn)).
Proof.
  intros IF twp meta.
  destruct meta as [b | b delegate dt delegateDeps | b expression];
    cbn [base]; destruct (deps b) as [l| |] eqn:Hd;
    factory_shape Hd; eexists; (split; [|first
      [ left; split; [reflexivity|reflexivity]
      | right; split; [discriminate|reflexivity] ]]);
    discriminate.
Qed.

(** X8.  For plain constructor metadata whose [deps] is a list, the factory
    body is the single statement [return new (t || internalType)(...)],
    with one argument per dependency; the compiler adds no branch to those
    of the internal type and of the compiled tokens. *)
Theorem compileFactoryFunction_constructor :
  forall InjectFlags typeWithParameters b l,
    deps b = DepsList l ->
    let e :=
      util.expression
        (compileFactoryFunction InjectFlags typeWithParameters
           (R3ConstructorFactory b)) in
    let args := injectDependencies InjectFlags l (target b) in
    e = fn [mkFnParam "t" DYNAMIC_TYPE]
           [ReturnStatement
              (InstantiateExpr
                 (BinaryOperatorExpr Or (variable "t") (internalType b))
                 args)]
           (Some INFERRED_TYPE) (Some (name b ++ "_Factory")%string)
    /\ List.length args = List.length l
    /\ countConditional e
       = (countConditional (internalType b)
          + sumCompiledTokens countConditional l)%nat.
Proof.
  intros IF twp b l Hd e args. subst e args.
  split; [|split].
  - factory_shape Hd. reflexivity.
  - apply injectDependencies_length.
  - factory_shape Hd. unfold countConditional. count_nodes.
    rewrite injectDependencies_conditionals. unfold countConditional. lia.
Qed.

Lemma compileFactoryFunction_constructor_witness :
  countConditional
    (util.expression
       (Samples.compile
          (R3ConstructorFactory (Samples.meta (DepsList []) Injectable))))
  = 0%nat.
Proof.
  apply (compileFactoryFunction_constructor core.bitmask
           util.typeWithParameters (Samples.meta (DepsList []) Injectable)
           []).
  reflexivity.
Defined.

(** X9.  For expression metadata the type to construct is [t ||
    internalType].  When [deps] is a list, the factory is [var r = null; if
    (t) { r = new (t || internalType)(...) } else { r = expression };
    return r]; when [deps] is ['invalid'], the branch for a supplied [t] is
    the statement [invalidFactory()] instead. *)
Theorem compileFactoryFunction_expression :
  forall InjectFlags typeWithParameters b expression,
    let meta := R3ExpressionFactory b expression in
    let e :=
      util.expression
        (compileFactoryFunction InjectFlags typeWithParameters meta) in
    typeForCtor meta = BinaryOperatorExpr Or (variable "t") (internalType b)
    /\ (forall l,
           deps b = DepsList l ->
           selectsByOverride e
             (InstantiateExpr (typeForCtor meta)
                (injectDependencies InjectFlags l (target b)))
             expression)
    /\ (deps b = DepsInvalid ->
        e = fn [mkFnParam "t" DYNAMIC_TYPE]
               [toDeclStmt "r" NULL_EXPR;
                ifStmt (variable "t")
                       [toStmt (callFn (importExpr R3.invalidFactory None)
                                       [] false)]
                       [toStmt (set "r" expression)];
                ReturnStatement (variable "r")]
               (Some INFERRED_TYPE)
               (Some (name b ++ "_Factory")%string)).
Proof.
  intros IF twp b expression meta e. subst e meta.
  split; [reflexivity|]. split.
  - intros l Hd. factory_shape Hd. do 3 eexists. reflexivity.
  - intros Hd. factory_shape Hd. reflexivity.
Qed.

Lemma compileFactoryFunction_expression_witness :
  selectsByOverride
    (util.expression
       (Samples.compile
          (R3ExpressionFactory
             (Samples.meta (DepsList [Samples.selfDep]) Injectable)
             MoreSamples.Value)))
    (InstantiateExpr
       (BinaryOperatorExpr Or (variable "t") Samples.MyClass)
       (injectDependencies core.bitmask [Samples.selfDep] Injectable))
    MoreSamples.Value.
Proof.
  apply (compileFactoryFunction_expression core.bitmask
           util.typeWithParameters
           (Samples.meta (DepsList [Samples.selfDep]) Injectable)
           MoreSamples.Value).
  reflexivity.
Defined.

(** X10.  The declared factory type is determined by the type expression,
    the arity and the qualifiers of the constructor's dependencies: two
    metadata that agree on these get the same declared type, whatever
    their variants, tokens, attribute-name types, targets, delegate
    dependencies and flag tables. *)
Theorem createFactoryType_qualifiers_only :
  forall InjectFlags1 InjectFlags2 typeWithParameters meta1 meta2,
    util.type (type (base meta1)) = util.type (type (base meta2)) ->
    typeArgumentCount (base meta1) = typeArgumentCount (base meta2) ->
    depsQualifiers (deps (base meta1)) = depsQualifiers (deps (base meta2)) ->
    util.compiledType
      (compileFactoryFunction InjectFlags1 typeWithParameters meta1)
    = util.compiledType
        (compileFactoryFunction InjectFlags2 typeWithParameters meta2).
Proof.
  intros IF1 IF2 twp meta1 meta2 Htype Harity Hq.
  assert (Hdeps : ctorDepsTypeOf (deps (base meta1))
                  = ctorDepsTypeOf (deps (base meta2))).
  { destruct (deps (base meta1)) as [l1| |], (deps (base meta2)) as [l2| |];
      try discriminate; try reflexivity.
    simpl in Hq. injection Hq as Hq. unfold ctorDepsTypeOf.
    assert (Hboth : existsb hasQualifier l1 = existsb hasQualifier l2
                    /\ map ctorDepTypeElement l1
                       = map ctorDepTypeElement l2).
    { revert l2 Hq. induction l1 as [|d1 l1 IH]; intros [|d2 l2] Hq;
        try discriminate; [split; reflexivity|].
      simpl in Hq. injection Hq as Ho Hs Hk Hl. simpl.
      destruct (IH l2 Hl) as [-> ->].
      unfold ctorDepTypeElement, hasQualifier, qualifierKeys.
      now rewrite Ho, Hs, Hk. }
    destruct Hboth as [Hex Hmap].
    now rewrite Hex, Hmap. }
  assert (Hshape : forall IF meta,
             util.compiledType (compileFactoryFunction IF twp meta)
             = expressionType
                 (importExpr R3.FactoryDeclaration
                    (Some [twp (util.type (type (base meta)))
                               (typeArgumentCount (base meta));
                           ctorDepsTypeOf (deps (base meta))]))
                 None).
  { intros IF meta. unfold compileFactoryFunction.
    destruct (deps (base meta)) as [l| |] eqn:Hd;
      destruct meta; simpl in *; unfold createFactoryType; simpl;
      rewrite Hd; rewrite ?createCtorDepsType_reading; reflexivity. }
  now rewrite !Hshape, Htype, Harity, Hdeps.
Qed.

Lemma createFactoryType_qualifiers_only_witness :
  util.compiledType
    (Samples.compile
       (R3ConstructorFactory
          (Samples.meta (DepsList [MoreSamples.skipSelfDep]) Directive)))
  = util.compiledType
      (Samples.compile
         (R3DelegatedFnOrClass
            (Samples.meta
               (DepsList [Samples.dep None (Some Samples.attrName)
                                      false false true])
               Injectable)
            Samples.Delegate Class [Samples.selfDep])).
Proof.
  apply (createFactoryType_qualifiers_only core.bitmask core.bitmask
           util.typeWithParameters
           (R3ConstructorFactory
              (Samples.meta (DepsList [MoreSamples.skipSelfDep]) Directive))
           (R3DelegatedFnOrClass
              (Samples.meta
                 (DepsList [Samples.dep None (Some Samples.attrName)
                                        false false true])
                 Injectable)
              Samples.Delegate Class [Samples.selfDep]));
    reflexivity.
Defined.

(* ================================================================== *)
(** ** The decorator-identifier guard *)

(** X11.  [isDecoratorIdentifier] accepts exactly the expressions of type
    [DecoratorIdentifier]: an identifier, or a property access of an
    identifier by an identifier.  A property access on anything else (a
    deeper access such as [a.b.c], a call) and an access by a private
    name are rejected. *)
Theorem isDecoratorIdentifier_iff :
  (forall exp,
      hostGuards.isDecoratorIdentifier exp = true
      <-> hostGuards.DecoratorIdentifier exp)
  /\ (forall a b c,
         hostGuards.isDecoratorIdentifier
           (tsAst.PropertyAccessExpression
              (tsAst.PropertyAccessExpression a b) c) = false)
  /\ (forall f args c,
         hostGuards.isDecoratorIdentifier
           (tsAst.PropertyAccessExpression (tsAst.CallExpression f args) c)
         = false)
  /\ (forall a n,
         hostGuards.isDecoratorIdentifier
           (tsAst.PropertyAccessExpression a (tsAst.PrivateIdentifier n))
         = false).
Proof.
  split; [|split; [|split]].
  - intros exp. split.
    + destruct exp as [t|t|e n|f a|k]; simpl; try discriminate.
      * intros _. constructor.
      * destruct e, n; simpl; try discriminate. intros _. constructor.
    + intros [t | e n]; reflexivity.
  - reflexivity.
  - reflexivity.
  - intros a n. unfold hostGuards.isDecoratorIdentifier. simpl.
    apply andb_false_r.
Qed.

(* ================================================================== *)
(** ** What the target and the position of a dependency change *)

Section TargetFacts.

Variable InjectFlags : core.InjectFlags.

Lemma compileInjectDependency_target (dep : R3DependencyMetadata)
      (t1 t2 : FactoryTarget) (index : Z) :
  getInjectFn t1 = getInjectFn t2 ->
  compileInjectDependency InjectFlags dep t1 index
  = compileInjectDependency InjectFlags dep t2 index.
Proof. intros H. unfold compileInjectDependency. now rewrite H. Qed.

Lemma injectDependenciesFrom_target (deps : list R3DependencyMetadata)
      (t1 t2 : FactoryTarget) :
  getInjectFn t1 = getInjectFn t2 ->
  forall start,
    injectDependenciesFrom InjectFlags start deps t1
    = injectDependenciesFrom InjectFlags start deps t2.
Proof.
  intros H. induction deps as [|dep rest IH]; intros start; simpl;
    [reflexivity|].
  now rewrite IH, (compileInjectDependency_target dep t1 t2 _ H).
Qed.

Lemma injectDependencies_target (deps : list R3DependencyMetadata)
      (t1 t2 : FactoryTarget) :
  getInjectFn t1 = getInjectFn t2 ->
  injectDependencies InjectFlags deps t1
  = injectDependencies InjectFlags deps t2.
Proof. intros H. now apply injectDependenciesFrom_target. Qed.

(** The index is used for a dependency without token only. *)
Lemma compileInjectDependency_index (dep : R3DependencyMetadata)
      (target : FactoryTarget) (i j : Z) :
  token dep <> None ->
  compileInjectDependency InjectFlags dep target i
  = compileInjectDependency InjectFlags dep target j.
Proof.
  intros H. unfold compileInjectDependency.
  destruct (token dep); [reflexivity | contradiction].
Qed.

Lemma injectDependenciesFrom_index (deps : list R3DependencyMetadata)
      (target : FactoryTarget) :
  Forall (fun dep => token dep <> None) deps ->
  forall i j,
    injectDependenciesFrom InjectFlags i deps target
    = injectDependenciesFrom InjectFlags j deps target.
Proof.
  induction 1 as [|dep rest Hdep Hrest IH]; intros i j; simpl;
    [reflexivity|].
  now rewrite (IH (S i) (S j)),
    (compileInjectDependency_index dep target (Z.of_nat i) (Z.of_nat j) Hdep).
Qed.

Lemma injectDependenciesFrom_app (l1 l2 : list R3DependencyMetadata)
      (target : FactoryTarget) :
  forall start,
    injectDependenciesFrom InjectFlags start (l1 ++ l2) target
    = injectDependenciesFrom InjectFlags start l1 target
      ++ injectDependenciesFrom InjectFlags (start + List.length l1) l2
           target.
Proof.
  induction l1 as [|dep rest IH]; intros start; simpl.
  - now rewrite Nat.add_0_r.
  - rewrite IH. now replace (S start + List.length rest)%nat
                      with (start + S (List.length rest))%nat by lia.
Qed.

End TargetFacts.

(** X12.  The target matters to the compiled factory through the injection
    function only: changing the target of any metadata to one with the
    same injection function (among Directive, Component and Pipe, or
    between Injectable and NgModule) leaves the whole result unchanged. *)
Theorem compileFactoryFunction_target :
  forall InjectFlags typeWithParameters meta tgt,
    getInjectFn tgt = getInjectFn (target (base meta)) ->
    compileFactoryFunction InjectFlags typeWithParameters
      (metaWithTarget tgt meta)
    = compileFactoryFunction InjectFlags typeWithParameters meta.
Proof.
  intros IF twp meta tgt H.
  destruct meta as [b | b delegate dt delegateDeps | b expression];
    cbn [base] in H;
    unfold compileFactoryFunction, createFactoryType, typeForCtor,
      baseFactoryName;
    cbn [metaWithTarget withTarget base name type internalType
           typeArgumentCount deps target isDelegatedFactoryMetadata];
    rewrite ?(injectDependencies_target IF delegateDeps tgt (target b) H);
    destruct (deps b) as [l| |];
    rewrite ?(injectDependencies_target IF l tgt (target b) H);
    reflexivity.
Qed.

Lemma compileFactoryFunction_target_witness :
  Samples.compile
    (metaWithTarget NgModule
       (R3ConstructorFactory
          (Samples.meta (DepsList [Samples.selfDep; Samples.unresolvedDep])
             Injectable)))
  = Samples.compile
      (R3ConstructorFactory
         (Samples.meta (DepsList [Samples.selfDep; Samples.unresolvedDep])
            Injectable)).
Proof.
  apply (compileFactoryFunction_target core.bitmask util.typeWithParameters
           (R3ConstructorFactory
              (Samples.meta
                 (DepsList [Samples.selfDep; Samples.unresolvedDep])
                 Injectable))
           NgModule).
  reflexivity.
Defined.

(** X13.  Compiling a dependency list distributes over appending a list in
    which every dependency has a token: the position of a dependency shows
    in its compilation only when it has no token. *)
Theorem injectDependencies_app :
  forall InjectFlags l1 l2 target,
    Forall (fun dep => token dep <> None) l2 ->
    injectDependencies InjectFlags (l1 ++ l2) target
    = injectDependencies InjectFlags l1 target
      ++ injectDependencies InjectFlags l2 target.
Proof.
  intros IF l1 l2 target Hl2. unfold injectDependencies.
  rewrite injectDependenciesFrom_app. f_equal.
  now apply injectDependenciesFrom_index.
Qed.

Lemma injectDependencies_app_witness :
  injectDependencies core.bitmask
    ([Samples.unresolvedDep] ++ [Samples.selfDep; Samples.attributeDep])
    Component
  = injectDependencies core.bitmask [Samples.unresolvedDep] Component
    ++ injectDependencies core.bitmask
         [Samples.selfDep; Samples.attributeDep] Component.
Proof.
  apply (injectDependencies_app core.bitmask [Samples.unresolvedDep]
           [Samples.selfDep; Samples.attributeDep] Component).
  repeat constructor; discriminate.
Defined.
